(** * providers_script.py: backend lookup, calibration metadata, run options

    A shallow embedding of [src/providers_script.py].  The script is glue
    around the Qiskit SDK, so the embedding has three layers:

    - the Python values the script handles (strings, ints, floats, [None],
      dictionaries, the [Target] mapping, [Options] objects);
    - the SDK surface the script touches, as interfaces ([BackendV2],
      [Provider], [Runtime], [Cloud]) whose operations either return a
      value or raise;
    - the five helper functions and the [__main__] block, written in a
      small monad that threads the possible exception and records, in
      program order, every line printed and every SDK access made. *)

From stdpp Require Import base strings pretty gmap list.

Set Default Proof Using "Type".
Open Scope string_scope.
Open Scope list_scope.

(** ** Exceptions and outcomes *)

(** The exceptions that can travel through the script.  [AttributeError]
    (with the attribute that is missing), [KeyError] and [TypeError] are
    also raised by Python itself (attribute read on [None], missing
    dictionary key, subscript on a value that has none); [SdkError] stands
    for any other exception class raised inside the SDK. *)
Inductive Exn : Type :=
| AttributeError (attr : string)
| KeyError (key : string)
| TypeError (msg : string)
| SdkError (cls msg : string).

(** Outcome of evaluating a Python expression. *)
Inductive Res (A : Type) : Type :=
| Value (a : A)
| Raise (e : Exn).
Arguments Value {A} a.
Arguments Raise {A} e.

(** The exception an outcome carries, if any. *)
Definition raised {A} (r : Res A) : option Exn :=
  match r with
  | Value _ => None
  | Raise e => Some e
  end.

(** ** Python and SDK values *)

(** A Python float, carried as its IEEE-754 binary64 bit pattern.  The
    script never computes with floats; it stores and prints them. *)
Record float : Type := Float64 { float_bits : Z }.

(** Key of the per-gate mapping of a [Target]: a tuple of qubit indices,
    or [None] for an instruction that applies globally. *)
Abbreviation Qargs := (option (list nat)) (only parsing).

(** A number held by an [InstructionProperties]: the SDK documents floats,
    the backend snapshots also hold ints (an error of [0]). *)
Inductive Number : Type :=
| NumInt (z : Z)
| NumFloat (x : float).

(** [qiskit.transpiler.InstructionProperties]: both fields may be [None]. *)
Record InstructionProperties : Type := {
  duration : option Number;
  error : option Number
}.

(** [target[gate]]: an insertion-ordered mapping from qubit tuples to
    properties, where the entry itself may be [None]. *)
Definition QargsMap : Type := list (Qargs * option InstructionProperties).

(** [qiskit.transpiler.Target] seen as the mapping it implements:
    operation name to [QargsMap], in insertion order. *)
Definition Target : Type := list (string * QargsMap).

(** Values stored in the dictionaries the script builds, told apart by
    what the script can do with them.  [PyCouplingMap] is a reference to
    an object with a [draw()] method, as a [CouplingMap] is; [PyTarget]
    is a mapping from operation names to mappings from qubit tuples to
    entries, as a [Target] is; [PyObj] is a reference to an SDK object
    that the script only passes along (a datetime, a list of names, a
    noise model, a session, a job, ...): it has neither [keys()] nor
    [draw()]. *)
Inductive PyVal : Type :=
| PyNone
| PyStr (s : string)
| PyInt (z : Z)
| PyFloat (x : float)
| PyObj (id : positive)
| PyCouplingMap (id : positive)
| PyTarget (t : Target).

(** [qiskit_ibm_runtime.options.ExecutionOptions]. *)
Record ExecutionOptions : Type := {
  shots : PyVal;
  init_qubits : PyVal
}.

(** The [simulator] field of [Options]: the [SimulatorOptions] object the
    constructor puts there, or a dictionary assigned later. *)
Inductive Simulator : Type :=
| SimulatorOptions (o : PyVal)
| SimulatorDict (d : gmap string PyVal).

(** [qiskit_ibm_runtime.Options], restricted to the fields the script
    reads or writes. *)
Record Options : Type := {
  execution : ExecutionOptions;
  optimization_level : PyVal;
  resilience_level : PyVal;
  simulator : Simulator
}.

(** One builder call on a [QuantumCircuit]. *)
Inductive Instruction : Type :=
| Gate_h (qubit : nat)
| Gate_x (qubit : nat)
| Gate_cx (control_qubit target_qubit : nat)
| Measure_all.

(** [qiskit.QuantumCircuit]: the two constructor arguments and the builder
    calls applied so far, oldest first. *)
Record QuantumCircuit : Type := {
  qc_qubits : nat;
  qc_clbits : nat;
  qc_data : list Instruction
}.

Definition qc_append (qc : QuantumCircuit) (i : Instruction) : QuantumCircuit :=
  {| qc_qubits := qc_qubits qc;
     qc_clbits := qc_clbits qc;
     qc_data := qc_data qc ++ [i] |}.


(** ** The effect log *)

(** The object an attribute is read from. *)
Inductive Ref (B : Type) : Type :=
| RNone
| RBackend (b : B)
| RProps (p : InstructionProperties)
| RVal (v : PyVal).
Arguments RNone {B}.
Arguments RBackend {B} b.
Arguments RProps {B} p.
Arguments RVal {B} v.

(** Argument of an SDK call, as far as the log records it. *)
Inductive Arg (B : Type) : Type :=
| AVal (v : PyVal)
| AStr (s : string)
| ABackend (b : B)
| AOptions (o : Options)
| ACircuit (c : QuantumCircuit).
Arguments AVal {B} v.
Arguments AStr {B} s.
Arguments ABackend {B} b.
Arguments AOptions {B} o.
Arguments ACircuit {B} c.

(** What the script does to the outside world: the text of one [print]
    call, an attribute read, a failed subscript, a call into the SDK. *)
Inductive Op (B : Type) : Type :=
| Print (text : string)
| GetAttr (o : Ref B) (attr : string)
| GetItem (key : string)
| Call (callee : string) (args : list (Arg B)).
Arguments Print {B} text.
Arguments GetAttr {B} o attr.
Arguments GetItem {B} key.
Arguments Call {B} callee args.

(** The object a dictionary value refers to. *)
Definition ref_of {B} (v : PyVal) : Ref B :=
  match v with
  | PyNone => RNone
  | _ => RVal v
  end.

(** A performed operation and the exception it raised, if any. *)
Record Event (B : Type) : Type := {
  ev_op : Op B;
  ev_raised : option Exn
}.
Arguments Build_Event {B} _ _.
Arguments ev_op {B} _.
Arguments ev_raised {B} _.

(** A run of a piece of the script: the events it performed, in order,
    and how it ended. *)
Definition Run (B A : Type) : Type := list (Event B) * Res A.

Definition events {B A} (r : Run B A) : list (Event B) := fst r.
Definition outcome {B A} (r : Run B A) : Res A := snd r.

Definition run_ret {B A} (a : A) : Run B A := ([], Value a).

(** Sequencing: an exception in the first part skips the second. *)
Definition run_bind {B A C} (m : Run B A) (k : A → Run B C) : Run B C :=
  let (log, r) := m in
  match r with
  | Value a => let (log', r') := k a in (log ++ log', r')
  | Raise e => (log, Raise e)
  end.

#[global] Instance run_mret {B} : MRet (Run B) := @run_ret B.
#[global] Instance run_mbind {B} : MBind (Run B) := λ A C k m, run_bind m k.

(** An operation on the outside world with a given outcome. *)
Definition perform {B A} (op : Op B) (r : Res A) : Run B A :=
  ([{| ev_op := op; ev_raised := raised r |}], r).

(** [print(a)]. *)
Definition print {B} (text : string) : Run B unit :=
  perform (Print text) (Value tt).

(** [print(a, b)]: the arguments separated by one space. *)
Definition print2 {B} (a b : string) : Run B unit :=
  print (a +:+ " " +:+ b).

(** [for x in l: body], threading the variables the body assigns. *)
Fixpoint for_each {B A S} (l : list A) (body : A → S → Run B S) (s : S)
  : Run B S :=
  match l with
  | [] => mret s
  | x :: l' => s' ← body x s; for_each l' body s'
  end.

(** [with cm: body] for a context manager whose [__exit__] returns
    [None]: [__exit__] runs whether or not the body raised, and an
    exception of the body is re-raised after it. *)
Definition with_exit {B A} (exit : Run B unit) (body : Run B A) : Run B A :=
  let (log, r) := body in
  let (log', x) := exit in
  (log ++ log',
   match x with
   | Value _ => r
   | Raise e => Raise e
   end).

(** ** Built-in operations on Python values *)

Definition tab : string := String (Ascii.ascii_of_nat 9) EmptyString.
Definition newline : string := String (Ascii.ascii_of_nat 10) EmptyString.

(** [str(t)] for a tuple of ints. *)
Definition str_tuple (t : list nat) : string :=
  match t with
  | [] => "()"
  | [q] => "(" +:+ pretty q +:+ ",)"
  | q :: t' =>
      "(" +:+ pretty q +:+
      fold_right (λ q' s, ", " +:+ pretty q' +:+ s) ")" t'
  end.

Definition str_qargs (qbits : Qargs) : string :=
  match qbits with
  | None => "None"
  | Some t => str_tuple t
  end.

(** [d[key]] on a dictionary with string keys. *)
Definition getitem {B V} (d : gmap string V) (key : string) : Run B V :=
  match d !! key with
  | Some v => mret v
  | None => perform (GetItem key) (Raise (KeyError key))
  end.

(** [t[gate]] on a [Target]. *)
Fixpoint target_lookup (t : Target) (gate : string) : option QargsMap :=
  match t with
  | [] => None
  | (g, m) :: t' => if String.eqb g gate then Some m else target_lookup t' gate
  end.

Definition target_getitem {B} (t : Target) (gate : string) : Run B QargsMap :=
  match target_lookup t gate with
  | Some m => mret m
  | None => perform (GetItem gate) (Raise (KeyError gate))
  end.

(** [m[qbits]] on the mapping of one gate. *)
Fixpoint qargs_lookup (m : QargsMap) (qbits : Qargs)
  : option (option InstructionProperties) :=
  match m with
  | [] => None
  | (q, p) :: m' => if decide (q = qbits) then Some p else qargs_lookup m' qbits
  end.

Definition qargs_getitem {B} (m : QargsMap) (qbits : Qargs)
  : Run B (option InstructionProperties) :=
  match qargs_lookup m qbits with
  | Some p => mret p
  | None =>
      perform (GetItem (str_qargs qbits)) (Raise (KeyError (str_qargs qbits)))
  end.

(** [.keys()] of the two mappings: the keys in iteration order. *)
Definition target_keys (t : Target) : list string := t.*1.
Definition qargs_keys (m : QargsMap) : list Qargs := m.*1.

(** [entry != None] for a target entry: [InstructionProperties] does not
    override comparison, so this is an identity test. *)
Definition not_None {A} (entry : option A) : bool :=
  match entry with
  | Some _ => true
  | None => false
  end.

(** [entry.attr] for a target entry that may be [None]. *)
Definition props_attr {B A} (entry : option InstructionProperties)
    (attr : string) (field : InstructionProperties → A) : Run B A :=
  match entry with
  | Some p => perform (GetAttr (RProps p) attr) (Value (field p))
  | None => perform (GetAttr RNone attr) (Raise (AttributeError attr))
  end.

(** [v.keys()] on a dictionary value: the values with a [keys()] method
    are the [PyTarget] ones. *)
Definition val_keys {B} (v : PyVal) : Run B (list string) :=
  match v with
  | PyTarget t => mret (target_keys t)
  | _ => perform (GetAttr (ref_of v) "keys") (Raise (AttributeError "keys"))
  end.

(** [v[gate]] on a dictionary value: only a [Target] is subscriptable by
    a gate name. *)
Definition val_getitem {B} (v : PyVal) (gate : string) : Run B QargsMap :=
  match v with
  | PyTarget t => target_getitem t gate
  | _ => perform (GetItem gate) (Raise (TypeError "object is not subscriptable"))
  end.

(** ** The SDK surface *)

(** The twelve [BackendV2] properties read by the script.  Each read
    either returns or raises. *)
Class BackendV2 (B : Type) : Type := {
  name : B → Res string;
  backend_version : B → Res PyVal;
  online_date : B → Res PyVal;
  dt : B → Res PyVal;
  dtm : B → Res PyVal;
  max_circuits : B → Res PyVal;
  num_qubits : B → Res PyVal;
  coupling_map : B → Res PyVal;
  operation_names : B → Res PyVal;
  instruction_durations : B → Res PyVal;
  instruction_schedule_map : B → Res PyVal;
  target : B → Res Target
}.

(** A provider enumerates backends. *)
Class Provider (P B : Type) : Type := {
  backends : P → Res (list B)
}.

(** The rest of the local SDK surface used by the helpers: [str()] of the
    values whose text the SDK or the interpreter decides,
    [CouplingMap.draw()], the [Options()] constructor and
    [NoiseModel.from_backend]. *)
Class Runtime (B : Type) : Type := {
  str_float : float → string;
  str_object : PyVal → string;
  draw : positive → Res unit;
  new_Options : Res Options;
  NoiseModel_from_backend : B → Res PyVal
}.

(** The cloud side used by the [__main__] block.  The first argument of
    the calls of the simulation part is the number of the experiment
    (0 or 1) they belong to: the service may answer the same request
    differently each time. *)
Class Cloud (P : Type) : Type := {
  FakeProviderForBackendV2 : Res P;
  QiskitRuntimeService : Res PyVal;
  get_backend : PyVal → string → Res PyVal;
  Session : nat → PyVal → PyVal → Res PyVal;
  Session_exit : nat → PyVal → Res unit;
  Sampler : nat → PyVal → Options → Res PyVal;
  transpile : nat → QuantumCircuit → PyVal → Res PyVal;
  Sampler_run : nat → PyVal → PyVal → Res PyVal;
  Job_result : nat → PyVal → Res PyVal
}.

(** ** The helper functions *)

Section Helpers.
Context {P B : Type} {backend_api : BackendV2 B} {provider_api : Provider P B}
  {runtime : Runtime B}.

(** [str(v)] and the text [str.format] substitutes for [v]. *)
Definition str (v : PyVal) : string :=
  match v with
  | PyNone => "None"
  | PyStr s => s
  | PyInt z => pretty z
  | PyFloat x => str_float x
  | PyObj _ | PyCouplingMap _ | PyTarget _ => str_object v
  end.

(** The text [str.format] substitutes for a field of an
    [InstructionProperties]. *)
Definition str_optnum (v : option Number) : string :=
  match v with
  | None => "None"
  | Some (NumInt z) => pretty z
  | Some (NumFloat x) => str_float x
  end.

(** [backend.attr] where [backend] is a reference that may be [None]. *)
Definition backend_attr {A} (backend : option B) (attr : string)
    (read : B → Res A) : Run B A :=
  match backend with
  | Some b => perform (GetAttr (RBackend b) attr) (read b)
  | None => perform (GetAttr RNone attr) (Raise (AttributeError attr))
  end.

(** [v.draw()] on a dictionary value: the values with a [draw()] method
    are the [PyCouplingMap] ones; what the call does is up to the SDK. *)
Definition val_draw (v : PyVal) : Run B unit :=
  match v with
  | PyCouplingMap id => perform (Call "draw" [AVal v]) (draw id)
  | _ => perform (GetAttr (ref_of v) "draw") (Raise (AttributeError "draw"))
  end.

(** [search_backend(provider, searched_backend_name)], lines 17-40. *)
Definition search_backend (provider : P) (searched_backend_name : string)
  : Run B (option B) :=
  let searched_backend := None in
  bs ← perform (Call "backends" []) (backends provider);
  for_each bs (λ backend searched_backend,
    n ← backend_attr (Some backend) "name" name;
    if String.eqb n searched_backend_name
    then mret (Some backend)
    else mret searched_backend) searched_backend.

(** [get_backend_info(backend)], lines 43-73.  The values of the
    dictionary display are evaluated top to bottom. *)
Definition get_backend_info (backend : option B) : Run B (gmap string PyVal) :=
  v1 ← backend_attr backend "name" name;
  v2 ← backend_attr backend "backend_version" backend_version;
  v3 ← backend_attr backend "online_date" online_date;
  v4 ← backend_attr backend "dt" dt;
  v5 ← backend_attr backend "dtm" dtm;
  v6 ← backend_attr backend "max_circuits" max_circuits;
  v7 ← backend_attr backend "num_qubits" num_qubits;
  v8 ← backend_attr backend "coupling_map" coupling_map;
  v9 ← backend_attr backend "operation_names" operation_names;
  v10 ← backend_attr backend "instruction_durations" instruction_durations;
  v11 ← backend_attr backend "instruction_schedule_map" instruction_schedule_map;
  v12 ← backend_attr backend "target" target;
  let backend_info : gmap string PyVal :=
    <["target" := PyTarget v12]>
    (<["instruction_schedule_map" := v11]>
    (<["instruction_durations" := v10]>
    (<["operation_names" := v9]>
    (<["coupling_map" := v8]>
    (<["num_qubits" := v7]>
    (<["max_circuits_per_job" := v6]>
    (<["syst_time_resolution_output_signals" := v5]>
    (<["syst_time_resolution_input_signals" := v4]>
    (<["online_date" := v3]>
    (<["version" := v2]>
    (<["name" := PyStr v1]> ∅))))))))))) in
  mret backend_info.

(** [backend_info['target'][gate][qbits]]. *)
Definition info_entry (backend_info : gmap string PyVal) (gate : string)
    (qbits : Qargs) : Run B (option InstructionProperties) :=
  t ← getitem backend_info "target";
  m ← val_getitem t gate;
  qargs_getitem m qbits.

(** [print_backend_info(backend_info)], lines 75-107. *)
Definition print_backend_info (backend_info : gmap string PyVal) : Run B unit :=
  v ← getitem backend_info "name"; print2 "Name: " (str v);;
  v ← getitem backend_info "version"; print2 "Version: " (str v);;
  v ← getitem backend_info "online_date"; print2 "Online date: " (str v);;
  v ← getitem backend_info "max_circuits_per_job";
  print2 "Max circuits per job: " (str v);;
  v ← getitem backend_info "num_qubits"; print2 "Number of qubits: " (str v);;
  print "System time resolution:";;
  v ← getitem backend_info "syst_time_resolution_input_signals";
  print2 (tab +:+ "Input signals: ") (str v);;
  v ← getitem backend_info "syst_time_resolution_output_signals";
  print2 (tab +:+ "Output signals: ") (str v);;
  print "Coupling map:";;
  v ← getitem backend_info "coupling_map"; val_draw v;;
  v ← getitem backend_info "operation_names";
  print2 "Operations names: " (str v);;
  print "Target:";;
  t ← getitem backend_info "target";
  gates ← val_keys t;
  for_each gates (λ gate _,
    print2 tab gate;;
    t ← getitem backend_info "target";
    m ← val_getitem t gate;
    for_each (qargs_keys m) (λ qbits _,
      e1 ← info_entry backend_info gate qbits;
      c ← (if not_None e1
           then e2 ← info_entry backend_info gate qbits; mret (not_None e2)
           else mret false);
      if (c : bool)
      then
        e3 ← info_entry backend_info gate qbits;
        d ← props_attr e3 "duration" duration;
        e4 ← info_entry backend_info gate qbits;
        e ← props_attr e4 "error" error;
        print (tab +:+ tab +:+ "Qubit(s) " +:+ str_qargs qbits +:+
               ": duration=" +:+ str_optnum d +:+
               ", error=" +:+ str_optnum e)
      else
        print (tab +:+ tab +:+ "Qubit(s) " +:+ str_qargs qbits +:+
               ": duration=None, error=None")) tt) tt.

(** [backend.target[gate][qbits]]. *)
Definition target_entry (backend : option B) (gate : string) (qbits : Qargs)
  : Run B (option InstructionProperties) :=
  t ← backend_attr backend "target" target;
  m ← target_getitem t gate;
  qargs_getitem m qbits.

(** [gate_errors[gate][qbits] = v]: the inner dictionary is fetched from
    the outer one and updated in place. *)
Definition setitem2 (gate_errors : gmap string (gmap Qargs (option Number)))
    (gate : string) (qbits : Qargs) (v : option Number)
  : Run B (gmap string (gmap Qargs (option Number))) :=
  inner ← getitem gate_errors gate;
  mret (<[gate := <[qbits := v]> inner]> gate_errors).

(** [get_gate_errors(backend)], lines 113-143. *)
Definition get_gate_errors (backend : option B)
  : Run B (gmap string (gmap Qargs (option Number))) :=
  let gate_errors : gmap string (gmap Qargs (option Number)) := ∅ in
  t ← backend_attr backend "target" target;
  for_each (target_keys t) (λ gate gate_errors,
    let gate_errors := <[gate := ∅]> gate_errors in
    t ← backend_attr backend "target" target;
    m ← target_getitem t gate;
    for_each (qargs_keys m) (λ qbits gate_errors,
      e1 ← target_entry backend gate qbits;
      c ← (if not_None e1
           then e2 ← target_entry backend gate qbits; mret (not_None e2)
           else mret false);
      if (c : bool)
      then
        e3 ← target_entry backend gate qbits;
        v ← props_attr e3 "error" error;
        setitem2 gate_errors gate qbits v
      else
        setitem2 gate_errors gate qbits None) gate_errors) gate_errors.

(** [create_options(nb_shots, backend = None)], lines 146-176. *)
Definition create_options (nb_shots : Z) (backend : option B) : Run B Options :=
  options ← perform (Call "Options" []) new_Options;
  let options :=
    {| execution := {| shots := PyInt nb_shots;
                       init_qubits := init_qubits (execution options) |};
       optimization_level := optimization_level options;
       resilience_level := resilience_level options;
       simulator := simulator options |} in
  let options :=
    {| execution := execution options;
       optimization_level := PyInt 0;
       resilience_level := resilience_level options;
       simulator := simulator options |} in
  let options :=
    {| execution := execution options;
       optimization_level := optimization_level options;
       resilience_level := PyInt 0;
       simulator := simulator options |} in
  match backend with
  | Some b =>
      noise_model ←
        perform (Call "NoiseModel.from_backend" [ABackend b])
                (NoiseModel_from_backend b);
      basis_gates ← backend_attr backend "operation_names" operation_names;
      coupling ← backend_attr backend "coupling_map" coupling_map;
      mret {| execution := execution options;
              optimization_level := optimization_level options;
              resilience_level := resilience_level options;
              simulator :=
                SimulatorDict
                  (<["coupling_map" := coupling]>
                  (<["basis_gates" := basis_gates]>
                  (<["noise_model" := noise_model]> ∅))) |}
  | None => mret options
  end.

End Helpers.

(** ** The [__main__] block *)

Section Script.
Context {P B : Type} {backend_api : BackendV2 B} {provider_api : Provider P B}
  {runtime : Runtime B} {cloud : Cloud P}.

(** The circuit of lines 221-226. *)
Definition qc : QuantumCircuit :=
  let qc := {| qc_qubits := 2; qc_clbits := 2; qc_data := [] |} in
  let qc := qc_append qc (Gate_h 0) in
  let qc := qc_append qc (Gate_x 1) in
  let qc := qc_append qc (Gate_cx 0 1) in
  qc_append qc Measure_all.

Definition nb_shots : Z := 1024.

(** Lines 190-210: the function tests.  Returns [fake_Melbourne], the
    only variable the rest of the script uses. *)
Definition function_tests : Run B (option B) :=
  fake_provider ← perform (Call "FakeProviderForBackendV2" [])
                          (FakeProviderForBackendV2 (P := P));
  fake_backends ← perform (Call "backends" []) (backends fake_provider);
  fake_Melbourne ← search_backend fake_provider "fake_melbourne";
  fake_Armonk ← search_backend fake_provider "fake_armonk";
  print ">> Information about different backends";;
  Melbourne_info ← get_backend_info fake_Melbourne;
  print_backend_info Melbourne_info;;
  Armonk_info ← get_backend_info fake_Armonk;
  print_backend_info Armonk_info;;
  mret fake_Melbourne.

(** Lines 218-269: the simulations. *)
Definition simulations (fake_Melbourne : option B) : Run B unit :=
  print (newline +:+ " SIMULATIONS");;
  ibm_quantum_service ←
    perform (Call "QiskitRuntimeService"
               [AStr "ibm_quantum"; AStr EmptyString; AStr "ibm-q/open/main"])
            (QiskitRuntimeService (P := P));
  simulator ←
    perform (Call "get_backend"
               [AVal ibm_quantum_service; AStr "ibmq_qasm_simulator"])
            (get_backend (P := P) ibm_quantum_service "ibmq_qasm_simulator");
  ideal_options ← create_options nb_shots None;
  noisy_options ← create_options nb_shots fake_Melbourne;
  print ">> Running experiments on ideal backend...";;
  session ← perform (Call "Session" [AVal ibm_quantum_service; AVal simulator])
                    (Session (P := P) 0 ibm_quantum_service simulator);
  with_exit (perform (Call "Session.__exit__" [AVal session])
                     (Session_exit (P := P) 0 session))
    (sampler ← perform (Call "Sampler" [AVal session; AOptions ideal_options])
                       (Sampler (P := P) 0 session ideal_options);
     tqc ← perform (Call "transpile" [ACircuit qc; AVal simulator])
                   (transpile (P := P) 0 qc simulator);
     job ← perform (Call "run" [AVal sampler; AVal tqc])
                   (Sampler_run (P := P) 0 sampler tqc);
     result ← perform (Call "result" [AVal job]) (Job_result (P := P) 0 job);
     print (str result));;
  print ">> Running experiments on noisy backend...";;
  session ← perform (Call "Session" [AVal ibm_quantum_service; AVal simulator])
                    (Session (P := P) 1 ibm_quantum_service simulator);
  with_exit (perform (Call "Session.__exit__" [AVal session])
                     (Session_exit (P := P) 1 session))
    (sampler ← perform (Call "Sampler" [AVal session; AOptions noisy_options])
                       (Sampler (P := P) 1 session noisy_options);
     tqc ← perform (Call "transpile" [ACircuit qc; AVal simulator])
                   (transpile (P := P) 1 qc simulator);
     job ← perform (Call "run" [AVal sampler; AVal tqc])
                   (Sampler_run (P := P) 1 sampler tqc);
     result ← perform (Call "result" [AVal job]) (Job_result (P := P) 1 job);
     print (str result)).

(** The whole block run by [python providers_script.py]. *)
Definition main : Run B unit :=
  fake_Melbourne ← function_tests;
  simulations fake_Melbourne.

End Script.

(** ** Snapshot backends and a local SDK that does not fail

    [FakeProviderForBackendV2] serves snapshots: plain data objects whose
    properties return the stored value.  The script's helpers are meant
    for them ("works only for fake backends (snapshots)", line 259). *)

Record FakeBackendV2 : Type := {
  fake_name : string;
  fake_backend_version : PyVal;
  fake_online_date : PyVal;
  fake_dt : PyVal;
  fake_dtm : PyVal;
  fake_max_circuits : PyVal;
  fake_num_qubits : PyVal;
  fake_coupling_map : PyVal;
  fake_operation_names : PyVal;
  fake_instruction_durations : PyVal;
  fake_instruction_schedule_map : PyVal;
  fake_target : Target
}.

Record FakeProvider : Type := {
  fake_backends : list FakeBackendV2
}.

#[global] Instance fake_backend_v2 : BackendV2 FakeBackendV2 := {|
  name b := Value (fake_name b);
  backend_version b := Value (fake_backend_version b);
  online_date b := Value (fake_online_date b);
  dt b := Value (fake_dt b);
  dtm b := Value (fake_dtm b);
  max_circuits b := Value (fake_max_circuits b);
  num_qubits b := Value (fake_num_qubits b);
  coupling_map b := Value (fake_coupling_map b);
  operation_names b := Value (fake_operation_names b);
  instruction_durations b := Value (fake_instruction_durations b);
  instruction_schedule_map b := Value (fake_instruction_schedule_map b);
  target b := Value (fake_target b)
|}.

#[global] Instance fake_provider : Provider FakeProvider FakeBackendV2 := {|
  backends p := Value (fake_backends p)
|}.

(** What a working installation of the SDK answers: how it prints floats
    and objects, the object [Options()] returns and the noise model it
    derives from a backend. *)
Record LocalSdk : Type := {
  sdk_str_float : float → string;
  sdk_str_object : PyVal → string;
  sdk_default_options : Options;
  sdk_noise_model : FakeBackendV2 → PyVal
}.

Definition local_runtime (sdk : LocalSdk) : Runtime FakeBackendV2 := {|
  str_float := sdk_str_float sdk;
  str_object := sdk_str_object sdk;
  draw _ := Value tt;
  new_Options := Value (sdk_default_options sdk);
  NoiseModel_from_backend b := Value (sdk_noise_model sdk b)
|}.

(** The event of reading [backend.attr] without an exception. *)
Definition read_ok {B} (b : B) (attr : string) : Event B :=
  {| ev_op := GetAttr (RBackend b) attr; ev_raised := None |}.

(** The event of a call that returned. *)
Definition call_ok {B} (callee : string) (args : list (Arg B)) : Event B :=
  {| ev_op := Call callee args; ev_raised := None |}.

(** The event of one [print] call. *)
Definition print_ok {B} (text : string) : Event B :=
  {| ev_op := Print text; ev_raised := None |}.

(** ** Predicates used in the statements *)

(** The keys of the dictionary [get_backend_info] builds. *)
Definition backend_info_keys : list string :=
  ["name"; "version"; "online_date";
   "syst_time_resolution_input_signals";
   "syst_time_resolution_output_signals";
   "max_circuits_per_job"; "num_qubits"; "coupling_map"; "operation_names";
   "instruction_durations"; "instruction_schedule_map"; "target"].

(** No operation of the log raised. *)
Definition quiet {B} (log : list (Event B)) : Prop :=
  Forall (λ ev, ev_raised ev = None) log.

(** A run hands every exception to its caller unchanged: it ends in an
    exception exactly when one of its operations raised, that operation
    is the last one performed, and the exception is the one it raised. *)
Definition propagates {B A} (r : Run B A) : Prop :=
  match outcome r with
  | Value _ => quiet (events r)
  | Raise e =>
      ∃ pre op, events r = pre ++ [{| ev_op := op; ev_raised := Some e |}]
                ∧ quiet pre
  end.

(** Nothing is recovered from: a run that returns met no exception. *)
Definition recovers_nothing {B A} (r : Run B A) : Prop :=
  ∀ a, outcome r = Value a → quiet (events r).

(** The event is not a read of [.duration] or [.error] on [None]. *)
Definition not_field_of_None {B} (ev : Event B) : Prop :=
  ∀ attr, ev_op ev = GetAttr RNone attr → attr ≠ "duration" ∧ attr ≠ "error".

(** The operations the five helpers can perform: printing, attribute
    reads other than [.duration] and [.error] on [None], failed
    subscripts, and calls to the local part of the SDK. *)
Definition helper_op {B} (op : Op B) : bool :=
  match op with
  | Print _ | GetItem _ => true
  | GetAttr RNone attr =>
      negb (String.eqb attr "duration") && negb (String.eqb attr "error")
  | GetAttr _ _ => true
  | Call callee _ =>
      existsb (String.eqb callee)
              ["backends"; "draw"; "Options"; "NoiseModel.from_backend"]
  end.

Definition helper_event {B} (ev : Event B) : Prop :=
  helper_op (ev_op ev) = true.

(** The argument lists of the calls to [callee] in a log, in order. *)
Fixpoint calls_to {B} (callee : string) (log : list (Event B))
  : list (list (Arg B)) :=
  match log with
  | [] => []
  | ev :: log' =>
      match ev_op ev with
      | Call c args =>
          if String.eqb c callee then args :: calls_to callee log'
          else calls_to callee log'
      | _ => calls_to callee log'
      end
  end.

(** The event is not a call to [callee]. *)
Definition not_call {B} (callee : string) (ev : Event B) : Prop :=
  ∀ args, ev_op ev ≠ Call callee args.

(** The log of one experiment of the simulation part that ran to its
    end: the banner, the session, the sampler made with [options], the
    circuit [qc] transpiled for [simulator], the job, its result printed
    as [text], the end of the session. *)
Definition experiment_log {B} (banner : string)
    (service simulator session sampler tqc job : PyVal) (options : Options)
    (circuit : QuantumCircuit) (text : string) : list (Event B) :=
  [print_ok banner;
   call_ok "Session" [AVal service; AVal simulator];
   call_ok "Sampler" [AVal session; AOptions options];
   call_ok "transpile" [ACircuit circuit; AVal simulator];
   call_ok "run" [AVal sampler; AVal tqc];
   call_ok "result" [AVal job];
   print_ok text;
   call_ok "Session.__exit__" [AVal session]].

(** ** Example objects *)

Definition example_props : InstructionProperties :=
  {| duration := Some (NumFloat (Float64 4494803534348976128));
     error := Some (NumFloat (Float64 4576918229304087675)) |}.

(** A virtual gate: a duration of [0.0] and the int [0] as error. *)
Definition example_rz_props : InstructionProperties :=
  {| duration := Some (NumFloat (Float64 0)); error := Some (NumInt 0) |}.

Definition example_target : Target :=
  [("cx", [(Some [0; 1], Some example_props); (Some [1; 0], None)]);
   ("measure", [(Some [0], Some {| duration := None; error := None |})]);
   ("delay", [(None, None)])].

Definition example_melbourne : FakeBackendV2 :=
  {| fake_name := "fake_melbourne";
     fake_backend_version := PyStr "0.0.0";
     fake_online_date := PyObj 1;
     fake_dt := PyFloat (Float64 4472406533629990549);
     fake_dtm := PyFloat (Float64 4472406533629990549);
     fake_max_circuits := PyNone;
     fake_num_qubits := PyInt 14;
     fake_coupling_map := PyCouplingMap 2;
     fake_operation_names := PyObj 3;
     fake_instruction_durations := PyObj 4;
     fake_instruction_schedule_map := PyObj 5;
     fake_target := example_target |}.

Definition example_armonk : FakeBackendV2 :=
  {| fake_name := "fake_armonk";
     fake_backend_version := PyStr "0.0.0";
     fake_online_date := PyObj 6;
     fake_dt := PyFloat (Float64 4472406533629990549);
     fake_dtm := PyFloat (Float64 4472406533629990549);
     fake_max_circuits := PyNone;
     fake_num_qubits := PyInt 1;
     fake_coupling_map := PyCouplingMap 7;
     fake_operation_names := PyObj 8;
     fake_instruction_durations := PyObj 9;
     fake_instruction_schedule_map := PyObj 10;
     fake_target :=
       [("rz", [(Some [0], Some example_rz_props)]);
        ("measure", [(Some [0], None)])] |}.

(** A second snapshot that answers to the name of the first. *)
Definition example_melbourne_v2 : FakeBackendV2 :=
  {| fake_name := "fake_melbourne";
     fake_backend_version := PyStr "2.0.0";
     fake_online_date := PyObj 11;
     fake_dt := PyNone;
     fake_dtm := PyNone;
     fake_max_circuits := PyNone;
     fake_num_qubits := PyInt 14;
     fake_coupling_map := PyCouplingMap 12;
     fake_operation_names := PyObj 13;
     fake_instruction_durations := PyObj 14;
     fake_instruction_schedule_map := PyObj 15;
     fake_target := [] |}.

(** A snapshot of one qubit without connectivity constraints: the SDK
    reports [None] as its coupling map. *)
Definition example_isolated : FakeBackendV2 :=
  {| fake_name := "fake_isolated";
     fake_backend_version := PyStr "0.0.0";
     fake_online_date := PyNone;
     fake_dt := PyNone;
     fake_dtm := PyNone;
     fake_max_circuits := PyNone;
     fake_num_qubits := PyInt 1;
     fake_coupling_map := PyNone;
     fake_operation_names := PyObj 19;
     fake_instruction_durations := PyObj 20;
     fake_instruction_schedule_map := PyObj 21;
     fake_target := [("delay", [(None, None)]);
                     ("measure", [(Some [0], None)])] |}.

Definition example_provider : FakeProvider :=
  {| fake_backends := [example_melbourne; example_armonk] |}.

Definition example_provider_dup : FakeProvider :=
  {| fake_backends :=
       [example_melbourne; example_armonk; example_melbourne_v2;
        example_armonk] |}.

Definition example_options : Options :=
  {| execution := {| shots := PyInt 4000; init_qubits := PyObj 16 |};
     optimization_level := PyInt 3;
     resilience_level := PyInt 1;
     simulator := SimulatorOptions (PyObj 17) |}.

Definition example_sdk : LocalSdk :=
  {| sdk_str_float := λ x, "float:" +:+ pretty (float_bits x);
     sdk_str_object := λ _, "<object>";
     sdk_default_options := example_options;
     sdk_noise_model := λ _, PyObj 18 |}.

(** A cloud service that answers every request. *)
Definition example_cloud : Cloud FakeProvider := {|
  FakeProviderForBackendV2 := Value example_provider;
  QiskitRuntimeService := Value (PyObj 40);
  get_backend _ _ := Value (PyObj 41);
  Session k _ _ := Value (PyObj (22 + Pos.of_succ_nat k));
  Session_exit _ _ := Value tt;
  Sampler k _ _ := Value (PyObj (24 + Pos.of_succ_nat k));
  transpile k _ _ := Value (PyObj (26 + Pos.of_succ_nat k));
  Sampler_run k _ _ := Value (PyObj (28 + Pos.of_succ_nat k));
  Job_result k _ := Value (PyObj (30 + Pos.of_succ_nat k))
|}.

(** A backend class that does not implement [dtm]: reading the property
    raises, as the base class of the SDK does. *)
Definition backend_without_dtm : BackendV2 FakeBackendV2 := {|
  name b := Value (fake_name b);
  backend_version b := Value (fake_backend_version b);
  online_date b := Value (fake_online_date b);
  dt b := Value (fake_dt b);
  dtm _ := Raise (SdkError "NotImplementedError" EmptyString);
  max_circuits b := Value (fake_max_circuits b);
  num_qubits b := Value (fake_num_qubits b);
  coupling_map b := Value (fake_coupling_map b);
  operation_names b := Value (fake_operation_names b);
  instruction_durations b := Value (fake_instruction_durations b);
  instruction_schedule_map b := Value (fake_instruction_schedule_map b);
  target b := Value (fake_target b)
|}.

(** ** Reference results *)

(** The dictionary [get_backend_info] is documented to return for a
    snapshot. *)
Definition backend_info_of (b : FakeBackendV2) : gmap string PyVal :=
  <["target" := PyTarget (fake_target b)]>
  (<["instruction_schedule_map" := fake_instruction_schedule_map b]>
  (<["instruction_durations" := fake_instruction_durations b]>
  (<["operation_names" := fake_operation_names b]>
  (<["coupling_map" := fake_coupling_map b]>
  (<["num_qubits" := fake_num_qubits b]>
  (<["max_circuits_per_job" := fake_max_circuits b]>
  (<["syst_time_resolution_output_signals" := fake_dtm b]>
  (<["syst_time_resolution_input_signals" := fake_dt b]>
  (<["online_date" := fake_online_date b]>
  (<["version" := fake_backend_version b]>
  (<["name" := PyStr (fake_name b)]> ∅))))))))))).

(** The value [get_gate_errors] is documented to store for an entry. *)
Definition entry_error (entry : option InstructionProperties) : option Number :=
  match entry with
  | Some p => error p
  | None => None
  end.

(** The inner dictionary for the mapping [m] of one gate, started from
    [inner]: every key of [m] bound to the error of [m[key]]. *)
Definition inner_errors (m : QargsMap) (qs : list Qargs)
    (inner : gmap Qargs (option Number)) : gmap Qargs (option Number) :=
  foldl (λ acc q, <[q := entry_error (default None (qargs_lookup m q))]> acc)
        inner qs.

(** The dictionary of gate errors of a target, started from [ge]. *)
Definition gate_errors_of (t : Target) (gs : list string)
    (ge : gmap string (gmap Qargs (option Number)))
  : gmap string (gmap Qargs (option Number)) :=
  foldl (λ acc g,
           let m := default [] (target_lookup t g) in
           <[g := inner_errors m (qargs_keys m) ∅]> acc)
        ge gs.

(** ** What reaches standard output and the sessions *)

(** The texts printed by a run, in order. *)
Fixpoint printed {B} (log : list (Event B)) : list string :=
  match log with
  | [] => []
  | ev :: log' =>
      match ev_op ev with
      | Print text => text :: printed log'
      | _ => printed log'
      end
  end.

(** The keys [print_backend_info] looks up. *)
Definition printed_keys : list string :=
  ["name"; "version"; "online_date"; "max_circuits_per_job"; "num_qubits";
   "syst_time_resolution_input_signals";
   "syst_time_resolution_output_signals";
   "coupling_map"; "operation_names"; "target"].

(** The event is a call to [Session(...)] that returned a session. *)
Definition session_opened {B} (ev : Event B) : bool :=
  match ev_op ev, ev_raised ev with
  | Call callee _, None => String.eqb callee "Session"
  | _, _ => false
  end.

(** The event is a call to [__exit__] of a session. *)
Definition session_closed {B} (ev : Event B) : bool :=
  match ev_op ev with
  | Call callee _ => String.eqb callee "Session.__exit__"
  | _ => false
  end.

(** The numbers of sessions opened and closed in a log. *)
Definition opened_sessions {B} (log : list (Event B)) : nat :=
  length (List.filter session_opened log).

Definition closed_sessions {B} (log : list (Event B)) : nat :=
  length (List.filter session_closed log).

(** As many sessions closed as opened. *)
Definition balanced {B} (log : list (Event B)) : Prop :=
  length (List.filter session_opened log)
  = length (List.filter session_closed log).

(** The event neither opens nor closes a session. *)
Definition sessionless {B} (ev : Event B) : Prop :=
  session_opened ev = false ∧ session_closed ev = false.

(** The event is not a [print]. *)
Definition silent {B} (ev : Event B) : Prop :=
  ∀ text, ev_op ev ≠ Print text.

Section Lines.
Context {B : Type} {runtime : Runtime B}.

(** The line documented for one entry of the target (lines 104-107). *)
Definition entry_line (qbits : Qargs) (entry : option InstructionProperties)
  : string :=
  match entry with
  | Some p =>
      tab +:+ tab +:+ "Qubit(s) " +:+ str_qargs qbits +:+
      ": duration=" +:+ str_optnum (duration p) +:+
      ", error=" +:+ str_optnum (error p)
  | None =>
      tab +:+ tab +:+ "Qubit(s) " +:+ str_qargs qbits +:+
      ": duration=None, error=None"
  end.

(** The lines documented for a gate: its name, then its entries. *)
Definition gate_lines (gate : string) (m : QargsMap) : list string :=
  (tab +:+ " " +:+ gate) :: ((λ qe, entry_line qe.1 qe.2) <$> m).

(** The lines documented for a target. *)
Definition target_lines (t : Target) : list string :=
  mjoin ((λ gm, gate_lines gm.1 gm.2) <$> t).

(** The lines printed before the target, given the ten values looked
    up. *)
Definition header_lines (v_name v_version v_date v_max v_qubits v_dt v_dtm
    v_names : PyVal) : list string :=
  ["Name:  " +:+ str v_name;
   "Version:  " +:+ str v_version;
   "Online date:  " +:+ str v_date;
   "Max circuits per job:  " +:+ str v_max;
   "Number of qubits:  " +:+ str v_qubits;
   "System time resolution:";
   tab +:+ "Input signals:  " +:+ str v_dt;
   tab +:+ "Output signals:  " +:+ str v_dtm;
   "Coupling map:";
   "Operations names:  " +:+ str v_names;
   "Target:"].

End Lines.

(** A backend class on which the name of "fake_armonk" cannot be read. *)
Definition backend_unnamed_armonk : BackendV2 FakeBackendV2 := {|
  name b :=
    if String.eqb (fake_name b) "fake_armonk"
    then Raise (SdkError "RuntimeError" "name")
    else Value (fake_name b);
  backend_version b := Value (fake_backend_version b);
  online_date b := Value (fake_online_date b);
  dt b := Value (fake_dt b);
  dtm b := Value (fake_dtm b);
  max_circuits b := Value (fake_max_circuits b);
  num_qubits b := Value (fake_num_qubits b);
  coupling_map b := Value (fake_coupling_map b);
  operation_names b := Value (fake_operation_names b);
  instruction_durations b := Value (fake_instruction_durations b);
  instruction_schedule_map b := Value (fake_instruction_schedule_map b);
  target b := Value (fake_target b)
|}.

(** A provider that does not know "fake_melbourne". *)
Definition example_provider_small : FakeProvider :=
  {| fake_backends := [example_armonk; example_isolated] |}.

(** A cloud whose fake provider is [example_provider_small] and whose
    service cannot be reached. *)
Definition example_cloud_small : Cloud FakeProvider := {|
  FakeProviderForBackendV2 := Value example_provider_small;
  QiskitRuntimeService := Raise (SdkError "IBMNotAuthorizedError" "token");
  get_backend _ _ := Value (PyObj 41);
  Session k _ _ := Value (PyObj (22 + Pos.of_succ_nat k));
  Session_exit _ _ := Value tt;
  Sampler k _ _ := Value (PyObj (24 + Pos.of_succ_nat k));
  transpile k _ _ := Value (PyObj (26 + Pos.of_succ_nat k));
  Sampler_run k _ _ := Value (PyObj (28 + Pos.of_succ_nat k));
  Job_result k _ := Value (PyObj (30 + Pos.of_succ_nat k))
|}.

(** A cloud on which the first job is refused. *)
Definition example_cloud_refusing : Cloud FakeProvider := {|
  FakeProviderForBackendV2 := Value example_provider;
  QiskitRuntimeService := Value (PyObj 40);
  get_backend _ _ := Value (PyObj 41);
  Session k _ _ := Value (PyObj (22 + Pos.of_succ_nat k));
  Session_exit _ _ := Value tt;
  Sampler k _ _ := Value (PyObj (24 + Pos.of_succ_nat k));
  transpile k _ _ := Value (PyObj (26 + Pos.of_succ_nat k));
  Sampler_run _ _ _ := Raise (SdkError "IBMRuntimeError" "refused");
  Job_result k _ := Value (PyObj (30 + Pos.of_succ_nat k))
|}.

(** ** Laws of the run monad *)

Lemma bind_value {B A C} (m : Run B A) (k : A → Run B C) a :
  outcome m = Value a →
  m ≫= k = (events m ++ events (k a), outcome (k a)).
Proof.
  unfold mbind, run_mbind, run_bind, outcome, events.
  destruct m as [log r]. cbn. intros ->. by destruct (k a).
Qed.

Lemma bind_raise {B A C} (m : Run B A) (k : A → Run B C) e :
  outcome m = Raise e →
  m ≫= k = (events m, Raise e).
Proof.
  unfold mbind, run_mbind, run_bind, outcome, events.
  destruct m as [log r]. cbn. by intros ->.
Qed.

(** ** [search_backend] on snapshots *)

(** The loop of [search_backend]: the variable ends as the last backend
    of the list that bears the name, or is left as it was; the name of
    every backend of the list is read. *)
Lemma search_loop (s : string) (bs : list FakeBackendV2)
    (acc : option FakeBackendV2) :
  for_each bs (λ backend searched_backend,
    n ← backend_attr (Some backend) "name" name;
    if String.eqb n s then mret (Some backend) else mret searched_backend) acc
  = ((λ b, read_ok b "name") <$> bs,
     Value (from_option Some acc (last (filter (λ b, fake_name b = s) bs)))).
Proof.
  revert acc. induction bs as [|b bs IH]; intros acc; [done|].
  rewrite filter_cons. cbn.
  unfold mbind, run_mbind, run_bind. cbn.
  destruct (String.eqb_spec (fake_name b) s) as [Heq|Hne]; cbn.
  - rewrite decide_True by done. rewrite IH. cbn. f_equal. f_equal.
    rewrite last_cons. by destruct (last _).
  - rewrite decide_False by done. by rewrite IH.
Qed.

Lemma search_backend_run (p : FakeProvider) (s : string) :
  search_backend p s
  = (call_ok "backends" [] :: ((λ b, read_ok b "name") <$> fake_backends p),
     Value (last (filter (λ b, fake_name b = s) (fake_backends p)))).
Proof.
  unfold search_backend. erewrite bind_value; last by cbn.
  rewrite search_loop. cbn. f_equal. f_equal. by destruct (last _).
Qed.

(** C1: [search_backend] returns a backend of [provider.backends()] whose
    name is the searched one when there is at least one, and [None] when
    no backend of the list has that name. *)
Theorem search_backend_by_name (p : FakeProvider) (s : string) :
  ((∃ b, b ∈ fake_backends p ∧ name b = Value s) →
   ∃ b, outcome (search_backend p s) = Value (Some b)
        ∧ b ∈ fake_backends p ∧ name b = Value s)
  ∧ ((∀ b, b ∈ fake_backends p → name b ≠ Value s) →
     outcome (search_backend p s) = Value None).
Proof.
  rewrite search_backend_run. cbn [outcome snd name fake_backend_v2]. split.
  - intros (b & Hin & Hb). injection Hb as Hb.
    destruct (last (filter (λ b, fake_name b = s) (fake_backends p)))
      as [b'|] eqn:Hlast.
    + exists b'. apply last_Some_elem_of, list_elem_of_filter in Hlast.
      destruct Hlast as [-> ?]. done.
    + apply last_None in Hlast.
      by destruct (filter_nil_not_elem_of _ _ b Hlast Hb).
  - intros Hno. f_equal. apply last_None.
    destruct (filter _ _) as [|b l] eqn:Hf; [done|]. exfalso.
    assert (b ∈ filter (λ b, fake_name b = s) (fake_backends p)) as Hb
      by (rewrite Hf; left).
    apply list_elem_of_filter in Hb as [Hb Hin].
    apply (Hno b Hin). by rewrite <- Hb.
Qed.

Lemma search_backend_by_name_witness :
  (∃ b, outcome (search_backend example_provider "fake_armonk")
        = Value (Some b)
        ∧ b ∈ fake_backends example_provider ∧ name b = Value "fake_armonk")
  ∧ outcome (search_backend example_provider "fake_manila") = Value None.
Proof.
  split.
  - apply (search_backend_by_name example_provider "fake_armonk").
    exists example_armonk. split; [|reflexivity].
    right; left.
  - apply (search_backend_by_name example_provider "fake_manila").
    intros b Hb. cbn in Hb.
    apply elem_of_cons in Hb as [->|Hb]; [discriminate|].
    apply elem_of_cons in Hb as [->|Hb]; [discriminate|].
    by apply elem_of_nil in Hb.
Defined.

(** C9: when two or more backends of the list bear the searched name,
    [search_backend] returns the last of them in iteration order; the
    loop reads the name of every backend of the list, the ones after a
    match included. *)
Theorem search_backend_last_match (p : FakeProvider) (s : string)
    (l1 l2 l3 : list FakeBackendV2) (b1 b2 : FakeBackendV2) :
  fake_backends p = l1 ++ b1 :: l2 ++ b2 :: l3 →
  name b1 = Value s →
  name b2 = Value s →
  (∀ b, b ∈ l3 → name b ≠ Value s) →
  outcome (search_backend p s) = Value (Some b2)
  ∧ events (search_backend p s)
    = call_ok "backends" [] :: ((λ b, read_ok b "name") <$> fake_backends p).
Proof.
  intros Hbs H1 H2 H3. rewrite search_backend_run. split; [|done].
  cbn [outcome snd]. f_equal. rewrite Hbs.
  injection H2 as H2.
  assert (filter (λ b, fake_name b = s) l3 = []) as Hl3.
  { destruct (filter _ l3) as [|b l] eqn:Hf; [done|]. exfalso.
    assert (b ∈ filter (λ b, fake_name b = s) l3) as Hb by (rewrite Hf; left).
    apply list_elem_of_filter in Hb as [Hb Hin].
    apply (H3 b Hin). cbn. by rewrite Hb. }
  replace (l1 ++ b1 :: l2 ++ b2 :: l3) with (((l1 ++ b1 :: l2) ++ [b2]) ++ l3)
    by (by rewrite <- !app_assoc).
  rewrite (filter_app _ _ l3), Hl3, app_nil_r.
  rewrite (filter_app _ _ [b2]), (filter_cons_True _ b2 []) by done.
  apply last_snoc.
Qed.

Lemma search_backend_last_match_witness :
  outcome (search_backend example_provider_dup "fake_melbourne")
  = Value (Some example_melbourne_v2)
  ∧ events (search_backend example_provider_dup "fake_melbourne")
    = call_ok "backends" []
      :: ((λ b, read_ok b "name") <$> fake_backends example_provider_dup).
Proof.
  apply (search_backend_last_match example_provider_dup "fake_melbourne"
           [] [example_armonk] [example_armonk]
           example_melbourne example_melbourne_v2).
  - reflexivity.
  - reflexivity.
  - reflexivity.
  - intros b Hb. apply elem_of_cons in Hb as [->|Hb]; [discriminate|].
    by apply elem_of_nil in Hb.
Defined.

(** C5: on a backend, [get_backend_info] returns a dictionary with
    exactly the twelve documented keys, each bound to the value of the
    corresponding attribute; all it does to the backend is read those
    twelve attributes. *)
Theorem get_backend_info_snapshot (b : FakeBackendV2) :
  ∃ d : gmap string PyVal,
    outcome (get_backend_info (Some b)) = Value d
    ∧ dom d = list_to_set backend_info_keys
    ∧ size d = 12
    ∧ d !! "name" = Some (PyStr (fake_name b))
    ∧ d !! "version" = Some (fake_backend_version b)
    ∧ d !! "online_date" = Some (fake_online_date b)
    ∧ d !! "syst_time_resolution_input_signals" = Some (fake_dt b)
    ∧ d !! "syst_time_resolution_output_signals" = Some (fake_dtm b)
    ∧ d !! "max_circuits_per_job" = Some (fake_max_circuits b)
    ∧ d !! "num_qubits" = Some (fake_num_qubits b)
    ∧ d !! "coupling_map" = Some (fake_coupling_map b)
    ∧ d !! "operation_names" = Some (fake_operation_names b)
    ∧ d !! "instruction_durations" = Some (fake_instruction_durations b)
    ∧ d !! "instruction_schedule_map"
      = Some (fake_instruction_schedule_map b)
    ∧ d !! "target" = Some (PyTarget (fake_target b))
    ∧ events (get_backend_info (Some b))
      = read_ok b <$>
          ["name"; "backend_version"; "online_date"; "dt"; "dtm";
           "max_circuits"; "num_qubits"; "coupling_map"; "operation_names";
           "instruction_durations"; "instruction_schedule_map"; "target"].
Proof.
  eexists. split; [reflexivity|].
  assert (∀ m : gmap string PyVal,
            dom m = list_to_set backend_info_keys → size m = 12) as Hsize.
  { intros m Hm. rewrite <- size_dom, Hm, size_list_to_set; [done|].
    apply (bool_decide_unpack _). by vm_compute. }
  assert (∀ X Y : Prop, X → (X → Y) → X ∧ Y) as Hcut by tauto.
  apply Hcut.
  { rewrite !dom_insert_L, dom_empty_L. unfold backend_info_keys. cbn.
    set_solver. }
  intros Hdom. split; [by apply Hsize|].
  repeat split; by simplify_map_eq.
Qed.

(** C3: with a backend, [create_options] returns the options object with
    [execution.shots] set to [nb_shots], both levels set to 0, and
    [simulator] set to a dictionary holding the noise model built from
    the backend, its [operation_names] as [basis_gates] and its
    [coupling_map]. *)
Theorem create_options_noisy (sdk : LocalSdk) (nb_shots : Z)
    (b : FakeBackendV2) :
  ∃ (o : Options) (d : gmap string PyVal),
    outcome (create_options (runtime := local_runtime sdk) nb_shots (Some b))
    = Value o
    ∧ shots (execution o) = PyInt nb_shots
    ∧ optimization_level o = PyInt 0
    ∧ resilience_level o = PyInt 0
    ∧ simulator o = SimulatorDict d
    ∧ Value <$> d !! "noise_model"
      = Some (NoiseModel_from_backend (Runtime := local_runtime sdk) b)
    ∧ Value <$> d !! "basis_gates" = Some (operation_names b)
    ∧ Value <$> d !! "coupling_map" = Some (coupling_map b)
    ∧ dom d = {["noise_model"; "basis_gates"; "coupling_map"]}.
Proof.
  eexists _, _. split; [reflexivity|]. cbn.
  repeat split;
    first [ by simplify_map_eq
          | rewrite !dom_insert_L, dom_empty_L; set_solver ].
Qed.

(** C4: without a backend, [create_options] returns the options object
    with [execution.shots] set to [nb_shots], both levels set to 0 and
    the [simulator] field as the constructor left it; no noise model is
    built. *)
Theorem create_options_ideal (sdk : LocalSdk) (nb_shots : Z) :
  ∃ o : Options,
    outcome (create_options (runtime := local_runtime sdk) nb_shots None)
    = Value o
    ∧ shots (execution o) = PyInt nb_shots
    ∧ optimization_level o = PyInt 0
    ∧ resilience_level o = PyInt 0
    ∧ simulator o = simulator (sdk_default_options sdk)
    ∧ calls_to "NoiseModel.from_backend"
        (events (create_options (runtime := local_runtime sdk) nb_shots None))
      = [].
Proof.
  eexists. split; [reflexivity|]. by cbn.
Qed.

(** ** Exceptions travel unchanged *)

Section Propagation.
Context {P B : Type} {backend_api : BackendV2 B} {provider_api : Provider P B}
  {runtime : Runtime B}.

Lemma propagates_ret {A} (a : A) : propagates (B := B) (mret a).
Proof. constructor. Qed.

Lemma propagates_perform {A} (op : Op B) (r : Res A) :
  propagates (perform op r).
Proof.
  destruct r as [a|e]; cbn.
  - by repeat constructor.
  - exists [], op. split; [done|constructor].
Qed.

Lemma propagates_bind {A C} (m : Run B A) (k : A → Run B C) :
  propagates m →
  (∀ a, outcome m = Value a → propagates (k a)) →
  propagates (m ≫= k).
Proof.
  destruct m as [l [a|e]]; unfold propagates, quiet; cbn; intros Hm Hk.
  - specialize (Hk a eq_refl). unfold mbind, run_mbind, run_bind. cbn.
    destruct (k a) as [l' [c|e]]; cbn in *.
    + by apply Forall_app.
    + destruct Hk as (pre & op & -> & Hpre). exists (l ++ pre), op.
      split; [by rewrite app_assoc|by apply Forall_app].
  - done.
Qed.

Lemma propagates_for_each {A S} (l : list A) (body : A → S → Run B S) (s : S) :
  (∀ x s', propagates (body x s')) →
  propagates (for_each l body s).
Proof.
  intros Hbody. revert s. induction l as [|x l IH]; intros s; cbn.
  - apply (propagates_ret s).
  - apply propagates_bind; [apply Hbody|]. intros s' _. apply IH.
Qed.

Lemma propagates_print (text : string) : propagates (print (B := B) text).
Proof. apply propagates_perform. Qed.

Lemma propagates_getitem {V} (d : gmap string V) (key : string) :
  propagates (getitem (B := B) d key).
Proof.
  unfold getitem. destruct (d !! key);
    [apply propagates_ret|apply propagates_perform].
Qed.

Lemma propagates_target_getitem (t : Target) (gate : string) :
  propagates (target_getitem (B := B) t gate).
Proof.
  unfold target_getitem. destruct (target_lookup t gate);
    [apply propagates_ret|apply propagates_perform].
Qed.

Lemma propagates_qargs_getitem (m : QargsMap) (qbits : Qargs) :
  propagates (qargs_getitem (B := B) m qbits).
Proof.
  unfold qargs_getitem. destruct (qargs_lookup m qbits);
    [apply propagates_ret|apply propagates_perform].
Qed.

Lemma propagates_props_attr {A} (entry : option InstructionProperties)
    (attr : string) (field : InstructionProperties → A) :
  propagates (props_attr (B := B) entry attr field).
Proof. destruct entry; apply propagates_perform. Qed.

Lemma propagates_backend_attr {A} (backend : option B) (attr : string)
    (read : B → Res A) :
  propagates (backend_attr backend attr read).
Proof. destruct backend; apply propagates_perform. Qed.

Lemma propagates_val_draw (v : PyVal) : propagates (val_draw v).
Proof. destruct v; apply propagates_perform. Qed.

Lemma propagates_val_keys (v : PyVal) : propagates (val_keys (B := B) v).
Proof. destruct v; first [apply propagates_perform|apply propagates_ret]. Qed.

Lemma propagates_val_getitem (v : PyVal) (gate : string) :
  propagates (val_getitem (B := B) v gate).
Proof.
  destruct v; first [apply propagates_perform|apply propagates_target_getitem].
Qed.

(** One step of the search for a proof that a run propagates. *)
Ltac propagate_step :=
  first
    [ apply propagates_ret
    | apply propagates_perform
    | apply propagates_print
    | apply propagates_getitem
    | apply propagates_target_getitem
    | apply propagates_qargs_getitem
    | apply propagates_props_attr
    | apply propagates_backend_attr
    | apply propagates_val_draw
    | apply propagates_val_keys
    | apply propagates_val_getitem
    | apply propagates_for_each; intros
    | apply propagates_bind; [|intros ? _]
    | match goal with
      | |- propagates (if ?c then _ else _) => destruct c
      | |- propagates (match ?x with _ => _ end) => destruct x
      end ].

Lemma propagates_search_backend (provider : P) (s : string) :
  propagates (search_backend provider s).
Proof. unfold search_backend. repeat propagate_step. Qed.

Lemma propagates_get_backend_info (backend : option B) :
  propagates (get_backend_info backend).
Proof. unfold get_backend_info. repeat propagate_step. Qed.

Lemma propagates_print_backend_info (info : gmap string PyVal) :
  propagates (print_backend_info info).
Proof.
  unfold print_backend_info, info_entry, print2. repeat propagate_step.
Qed.

Lemma propagates_get_gate_errors (backend : option B) :
  propagates (get_gate_errors backend).
Proof.
  unfold get_gate_errors, target_entry, setitem2. repeat propagate_step.
Qed.

Lemma propagates_create_options (n : Z) (backend : option B) :
  propagates (create_options n backend).
Proof. unfold create_options. repeat propagate_step. Qed.

End Propagation.

(** ** [get_gate_errors] on snapshots *)

Lemma outcome_bind {B A C} (m : Run B A) (k : A → Run B C) a :
  outcome m = Value a → outcome (m ≫= k) = outcome (k a).
Proof. intros Hm. by rewrite (bind_value m k a Hm). Qed.

Lemma events_bind {B A C} (m : Run B A) (k : A → Run B C) a :
  outcome m = Value a → events (m ≫= k) = events m ++ events (k a).
Proof. intros Hm. by rewrite (bind_value m k a Hm). Qed.

(** Filling a dictionary key by key. *)
Lemma foldl_insert_lookup `{Countable K} {V} (f : K → V) (l : list K)
    (init : gmap K V) (k : K) :
  foldl (λ acc x, <[x := f x]> acc) init l !! k
  = if decide (k ∈ l) then Some (f k) else init !! k.
Proof.
  revert init. induction l as [|x l IH]; intros init; cbn.
  - by rewrite decide_False by apply not_elem_of_nil.
  - rewrite IH. destruct (decide (k ∈ l)) as [Hl|Hl].
    + by rewrite decide_True by by right.
    + destruct (decide (k = x)) as [->|Hne].
      * rewrite decide_True by left. apply lookup_insert_eq.
      * rewrite decide_False by (by intros [?|?]%elem_of_cons).
        by apply lookup_insert_ne.
Qed.

Lemma foldl_insert_dom `{Countable K} {V} (f : K → V) (l : list K) :
  dom (foldl (λ acc x, <[x := f x]> acc) (∅ : gmap K V) l) = list_to_set l.
Proof.
  apply set_eq. intros k.
  rewrite elem_of_dom, foldl_insert_lookup, elem_of_list_to_set.
  destruct (decide (k ∈ l)); [by split|].
  rewrite lookup_empty. split; [by intros [? ?]|done].
Qed.

Lemma target_lookup_keys (t : Target) (gate : string) :
  gate ∈ target_keys t ↔ is_Some (target_lookup t gate).
Proof.
  unfold target_keys. induction t as [|[g m] t IH]; cbn.
  - split; [by intros ?%elem_of_nil|by intros [? ?]].
  - destruct (String.eqb_spec g gate) as [->|Hne].
    + split; [by eexists|left].
    + rewrite elem_of_cons, IH. split; [by intros [?|?]|by right].
Qed.

Lemma qargs_lookup_keys (m : QargsMap) (qbits : Qargs) :
  qbits ∈ qargs_keys m ↔ is_Some (qargs_lookup m qbits).
Proof.
  unfold qargs_keys. induction m as [|[q p] m IH]; cbn.
  - split; [by intros ?%elem_of_nil|by intros [? ?]].
  - destruct (decide (q = qbits)) as [->|Hne].
    + split; [by eexists|left].
    + rewrite elem_of_cons, IH. split; [by intros [?|?]|by right].
Qed.

(** On a snapshot, [backend.target[gate][qbits]] is one read of
    [backend.target] and two lookups. *)
Lemma target_entry_snapshot (b : FakeBackendV2) (gate : string) (m : QargsMap)
    (qbits : Qargs) (entry : option InstructionProperties) :
  target_lookup (fake_target b) gate = Some m →
  qargs_lookup m qbits = Some entry →
  target_entry (Some b) gate qbits = ([read_ok b "target"], Value entry).
Proof.
  intros Hm Hq. unfold target_entry, target_getitem, qargs_getitem.
  cbn. unfold mbind, run_mbind, run_bind. cbn. rewrite Hm. cbn.
  by rewrite Hq.
Qed.

(** The inner loop of [get_gate_errors]. *)
Lemma gate_errors_inner_loop (b : FakeBackendV2) (gate : string) (m : QargsMap)
    (qs : list Qargs) :
  target_lookup (fake_target b) gate = Some m →
  ∀ (ge : gmap string (gmap Qargs (option Number)))
    (inner : gmap Qargs (option Number)),
    (∀ q, q ∈ qs → is_Some (qargs_lookup m q)) →
    ge !! gate = Some inner →
    outcome
      (for_each qs (λ qbits gate_errors,
         e1 ← target_entry (Some b) gate qbits;
         c ← (if not_None e1
              then e2 ← target_entry (Some b) gate qbits; mret (not_None e2)
              else mret false);
         if (c : bool)
         then
           e3 ← target_entry (Some b) gate qbits;
           v ← props_attr e3 "error" error;
           setitem2 gate_errors gate qbits v
         else
           setitem2 gate_errors gate qbits None) ge)
    = Value (<[gate := inner_errors m qs inner]> ge).
Proof.
  intros Hm. induction qs as [|q qs IH]; intros ge inner Hqs Hge.
  - cbn. f_equal. symmetry. by apply insert_id.
  - destruct (Hqs q) as [entry Hq]; [left|].
    cbn [for_each].
    rewrite (outcome_bind _ _
               (<[gate := <[q := entry_error entry]> inner]> ge)).
    + rewrite (IH _ (<[q := entry_error entry]> inner)).
      * f_equal. rewrite insert_insert_eq. unfold inner_errors. cbn.
        by rewrite Hq.
      * intros q' Hq'. apply Hqs. by right.
      * apply lookup_insert_eq.
    + rewrite !(target_entry_snapshot b gate m q entry Hm Hq).
      unfold setitem2, getitem. rewrite Hge.
      destruct entry as [p|]; reflexivity.
Qed.

(** The outer loop of [get_gate_errors]. *)
Lemma gate_errors_outer_loop (b : FakeBackendV2) (gs : list string) :
  ∀ ge : gmap string (gmap Qargs (option Number)),
    (∀ g, g ∈ gs → is_Some (target_lookup (fake_target b) g)) →
    outcome
      (for_each gs (λ gate gate_errors,
         let gate_errors := <[gate := ∅]> gate_errors in
         t ← backend_attr (Some b) "target" target;
         m ← target_getitem t gate;
         for_each (qargs_keys m) (λ qbits gate_errors,
           e1 ← target_entry (Some b) gate qbits;
           c ← (if not_None e1
                then e2 ← target_entry (Some b) gate qbits; mret (not_None e2)
                else mret false);
           if (c : bool)
           then
             e3 ← target_entry (Some b) gate qbits;
             v ← props_attr e3 "error" error;
             setitem2 gate_errors gate qbits v
           else
             setitem2 gate_errors gate qbits None) gate_errors) ge)
    = Value (gate_errors_of (fake_target b) gs ge).
Proof.
  induction gs as [|g gs IH]; intros ge Hgs; [done|].
  destruct (Hgs g) as [m Hm]; [left|].
  cbn [for_each].
  rewrite (outcome_bind _ _
             (<[g := inner_errors m (qargs_keys m) ∅]> ge)).
  - rewrite IH by (intros g' Hg'; apply Hgs; by right).
    unfold gate_errors_of. cbn. by rewrite Hm.
  - cbn zeta.
    rewrite (outcome_bind _ _ (fake_target b)) by done.
    unfold target_getitem. rewrite Hm.
    rewrite (outcome_bind _ _ m) by done.
    rewrite (gate_errors_inner_loop b g m (qargs_keys m) Hm _ ∅).
    + by rewrite insert_insert_eq.
    + intros q Hq. by apply qargs_lookup_keys.
    + apply lookup_insert_eq.
Qed.

Lemma get_gate_errors_outcome (b : FakeBackendV2) :
  outcome (get_gate_errors (Some b))
  = Value (gate_errors_of (fake_target b) (target_keys (fake_target b)) ∅).
Proof.
  unfold get_gate_errors.
  rewrite (outcome_bind _ _ (fake_target b)) by done.
  apply gate_errors_outer_loop. intros g Hg. by apply target_lookup_keys.
Qed.

(** The dictionary [get_gate_errors] returns on a snapshot, by its
    lookups. *)
Lemma get_gate_errors_lookups (b : FakeBackendV2) :
  ∃ ge : gmap string (gmap Qargs (option Number)),
    outcome (get_gate_errors (Some b)) = Value ge
    ∧ dom ge = list_to_set (target_keys (fake_target b))
    ∧ ∀ gate m,
        target_lookup (fake_target b) gate = Some m →
        ∃ inner : gmap Qargs (option Number),
          ge !! gate = Some inner
          ∧ dom inner = list_to_set (qargs_keys m)
          ∧ ∀ qbits entry,
              qargs_lookup m qbits = Some entry →
              match entry with
              | Some p => inner !! qbits = Some (error p)
              | None => inner !! qbits = Some None
              end.
Proof.
  eexists. split; [apply get_gate_errors_outcome|].
  unfold gate_errors_of. split; [apply foldl_insert_dom|].
  intros gate m Hm. eexists. split.
  - rewrite foldl_insert_lookup, decide_True; [by rewrite Hm|].
    apply target_lookup_keys. by eexists.
  - cbn. unfold inner_errors. split; [apply foldl_insert_dom|].
    intros qbits entry Hq.
    rewrite foldl_insert_lookup, decide_True, Hq.
    + by destruct entry.
    + apply qargs_lookup_keys. by eexists.
Qed.

(** C2: on a backend, [get_gate_errors] returns a dictionary whose keys
    are exactly the gates of [backend.target]; under each gate the keys
    are exactly the qubit tuples of [backend.target[gate]], and the value
    under a tuple is the [error] of the target entry when the entry is
    not [None], and [None] when it is. *)
Theorem get_gate_errors_snapshot (b : FakeBackendV2) :
  ∃ ge : gmap string (gmap Qargs (option Number)),
    outcome (get_gate_errors (Some b)) = Value ge
    ∧ dom ge = list_to_set (target_keys (fake_target b))
    ∧ ∀ gate m,
        target_lookup (fake_target b) gate = Some m →
        ∃ inner : gmap Qargs (option Number),
          ge !! gate = Some inner
          ∧ dom inner = list_to_set (qargs_keys m)
          ∧ ∀ qbits entry,
              qargs_lookup m qbits = Some entry →
              match entry with
              | Some p => inner !! qbits = Some (error p)
              | None => inner !! qbits = Some None
              end.
Proof. apply get_gate_errors_lookups. Qed.

Lemma get_gate_errors_snapshot_witness :
  ∃ (ge : gmap string (gmap Qargs (option Number)))
    (inner : gmap Qargs (option Number)),
    outcome (get_gate_errors (Some example_melbourne)) = Value ge
    ∧ dom ge = list_to_set ["cx"; "measure"; "delay"]
    ∧ ge !! "cx" = Some inner
    ∧ dom inner = list_to_set [Some [0; 1]; Some [1; 0]]
    ∧ inner !! Some [0; 1] = Some (error example_props)
    ∧ inner !! Some [1; 0] = Some None.
Proof.
  destruct (get_gate_errors_snapshot example_melbourne)
    as (ge & Hge & Hdom & Hgates).
  destruct (Hgates "cx"
              [(Some [0; 1], Some example_props); (Some [1; 0], None)]
              eq_refl)
    as (inner & Hinner & Hdom_inner & Hentries).
  exists ge, inner.
  split; [exact Hge|]. split; [exact Hdom|]. split; [exact Hinner|].
  split; [exact Hdom_inner|].
  split.
  - exact (Hentries (Some [0; 1]) (Some example_props) eq_refl).
  - exact (Hentries (Some [1; 0]) None eq_refl).
Defined.

(** The gate errors of the example snapshot. *)
Example get_gate_errors_example :
  outcome (get_gate_errors (Some example_melbourne))
  = Value
      (<["cx" := <[Some [0; 1] := error example_props]>
                 (<[Some [1; 0] := None]> ∅)]>
      (<["measure" := <[Some [0] := None]> ∅]>
      (<["delay" := <[None := None]> ∅]> ∅))).
Proof.
  vm_compute. reflexivity.
Qed.

(** ** Fields of a target entry are read only after the [None] check *)

Section Guard.
Context {P B : Type} {backend_api : BackendV2 B} {provider_api : Provider P B}
  {runtime : Runtime B}.

Lemma all_bind {A C} (Q : Event B → Prop) (m : Run B A) (k : A → Run B C) :
  Forall Q (events m) →
  (∀ a, outcome m = Value a → Forall Q (events (k a))) →
  Forall Q (events (m ≫= k)).
Proof.
  intros Hm Hk. destruct (outcome m) as [a|e] eqn:Ho.
  - rewrite (events_bind _ _ a Ho). apply Forall_app. split; [done|].
    by apply Hk.
  - by rewrite (bind_raise _ _ e Ho).
Qed.

Lemma all_for_each {A S} (Q : Event B → Prop) (l : list A)
    (body : A → S → Run B S) (s : S) :
  (∀ x s', Forall Q (events (body x s'))) →
  Forall Q (events (for_each l body s)).
Proof.
  intros Hbody. revert s. induction l as [|x l IH]; intros s; cbn.
  - constructor.
  - apply all_bind; [apply Hbody|]. intros s' _. apply IH.
Qed.

Lemma guard_perform {A} (op : Op B) (r : Res A) :
  helper_op op = true →
  Forall helper_event (events (perform op r)).
Proof. intros Hop. constructor; [exact Hop|constructor]. Qed.

Lemma guard_ret {A} (a : A) :
  Forall helper_event (events (mret a : Run B A)).
Proof. constructor. Qed.

Lemma guard_getitem {V} (d : gmap string V) (key : string) :
  Forall helper_event (events (getitem (B := B) d key)).
Proof.
  unfold getitem. destruct (d !! key); [constructor|].
  by apply guard_perform.
Qed.

Lemma guard_target_getitem (t : Target) (gate : string) :
  Forall helper_event (events (target_getitem (B := B) t gate)).
Proof.
  unfold target_getitem. destruct (target_lookup t gate); [constructor|].
  by apply guard_perform.
Qed.

Lemma guard_qargs_getitem (m : QargsMap) (qbits : Qargs) :
  Forall helper_event (events (qargs_getitem (B := B) m qbits)).
Proof.
  unfold qargs_getitem. destruct (qargs_lookup m qbits); [constructor|].
  by apply guard_perform.
Qed.

Lemma guard_val_keys (v : PyVal) :
  Forall helper_event (events (val_keys (B := B) v)).
Proof. destruct v; first [constructor; fail|by apply guard_perform]. Qed.

Lemma guard_val_getitem (v : PyVal) (gate : string) :
  Forall helper_event (events (val_getitem (B := B) v gate)).
Proof.
  destruct v; first [apply guard_target_getitem|by apply guard_perform].
Qed.

Lemma guard_val_draw (v : PyVal) :
  Forall helper_event (events (val_draw v)).
Proof. destruct v; by apply guard_perform. Qed.

Lemma guard_print (text : string) :
  Forall helper_event (events (print (B := B) text)).
Proof. by apply guard_perform. Qed.

Lemma guard_backend_attr {A} (backend : option B) (attr : string)
    (read : B → Res A) :
  attr ≠ "duration" → attr ≠ "error" →
  Forall helper_event (events (backend_attr backend attr read)).
Proof.
  intros Hd He. destruct backend; apply guard_perform; [done|]. cbn.
  apply String.eqb_neq in Hd, He. by rewrite Hd, He.
Qed.

Lemma guard_props_attr {A} (p : InstructionProperties) (attr : string)
    (field : InstructionProperties → A) :
  Forall helper_event (events (props_attr (B := B) (Some p) attr field)).
Proof. by apply guard_perform. Qed.

(** The shape both functions share: the entry is fetched, compared with
    [None] (twice), and the [then] branch runs only when the entry that
    was fetched is an object. *)
Lemma guard_checked {S} (Q : Event B → Prop)
    (fetch : Run B (option InstructionProperties)) (yes no : Run B S) :
  Forall Q (events fetch) →
  (∀ p, outcome fetch = Value (Some p) → Forall Q (events yes)) →
  Forall Q (events no) →
  Forall Q (events
    (e1 ← fetch;
     c ← (if not_None e1 then e2 ← fetch; mret (not_None e2) else mret false);
     if (c : bool) then yes else no)).
Proof.
  intros Hfetch Hyes Hno. apply all_bind; [done|]. intros e1 He1.
  apply all_bind.
  - destruct e1; cbn [not_None]; [|constructor].
    apply all_bind; [done|]. intros; constructor.
  - intros c Hc. destruct c; [|done].
    destruct e1 as [p|]; [by apply (Hyes p)|discriminate].
Qed.

Ltac guard_step :=
  first
    [ apply guard_ret
    | apply guard_print
    | apply guard_getitem
    | apply guard_target_getitem
    | apply guard_qargs_getitem
    | apply guard_val_keys
    | apply guard_val_getitem
    | apply guard_val_draw
    | apply guard_backend_attr; [discriminate|discriminate]
    | apply guard_props_attr
    | apply guard_perform; reflexivity
    | apply all_for_each; intros
    | apply all_bind; [|intros ? ?] ].

Lemma guard_get_gate_errors (backend : option B) :
  Forall helper_event (events (get_gate_errors backend)).
Proof.
  unfold get_gate_errors. apply all_bind; [guard_step|]. intros t _.
  apply all_for_each. intros gate ge. cbn zeta.
  apply all_bind; [guard_step|]. intros t' _.
  apply all_bind; [guard_step|]. intros m _.
  apply all_for_each. intros qbits ge'.
  apply guard_checked.
  - unfold target_entry. repeat guard_step.
  - intros p Hp. apply all_bind; [unfold target_entry; repeat guard_step|].
    intros e3 He3. rewrite Hp in He3. injection He3 as <-.
    unfold setitem2. repeat guard_step.
  - unfold setitem2. repeat guard_step.
Qed.

Lemma guard_print_backend_info (backend_info : gmap string PyVal) :
  Forall helper_event (events (print_backend_info backend_info)).
Proof.
  unfold print_backend_info, print2.
  do 23 (apply all_bind; [guard_step|]; intros ? _).
  apply all_for_each. intros gate [].
  apply all_bind; [guard_step|]. intros _ _.
  apply all_bind; [guard_step|]. intros t' _.
  apply all_bind; [guard_step|]. intros m _.
  apply all_for_each. intros qbits [].
  apply guard_checked.
  - unfold info_entry. repeat guard_step.
  - intros p Hp. apply all_bind; [unfold info_entry; repeat guard_step|].
    intros e3 He3. rewrite Hp in He3. injection He3 as <-.
    apply all_bind; [guard_step|]. intros d _.
    apply all_bind; [unfold info_entry; repeat guard_step|].
    intros e4 He4. rewrite Hp in He4. injection He4 as <-.
    repeat guard_step.
  - guard_step.
Qed.

Lemma guard_search_backend (provider : P) (s : string) :
  Forall helper_event (events (search_backend provider s)).
Proof. unfold search_backend. repeat guard_step. destruct (_ =? _); guard_step. Qed.

Lemma guard_get_backend_info (backend : option B) :
  Forall helper_event (events (get_backend_info backend)).
Proof. unfold get_backend_info. repeat guard_step. Qed.

Lemma guard_create_options (n : Z) (backend : option B) :
  Forall helper_event (events (create_options n backend)).
Proof.
  unfold create_options. apply all_bind; [guard_step|]. intros o _.
  destruct backend; repeat guard_step.
Qed.

(** A helper event is not a read of a field of [None]. *)
Lemma helper_event_not_field (ev : Event B) :
  helper_event ev → not_field_of_None ev.
Proof.
  unfold helper_event, not_field_of_None. intros Hev attr Hop.
  rewrite Hop in Hev. cbn in Hev.
  apply andb_true_iff in Hev as [Hd He].
  apply negb_true_iff in Hd, He. by apply String.eqb_neq in Hd, He.
Qed.

End Guard.

(** ** Runs that returned *)

Lemma bind_inv {B A C} (m : Run B A) (k : A → Run B C) (c : C) :
  outcome (m ≫= k) = Value c →
  ∃ a, outcome m = Value a
       ∧ outcome (k a) = Value c
       ∧ events (m ≫= k) = events m ++ events (k a).
Proof.
  destruct (outcome m) as [a|e] eqn:Ho; intros Hc.
  - exists a. rewrite (bind_value _ _ a Ho) in *. done.
  - by rewrite (bind_raise _ _ e Ho) in Hc.
Qed.

Lemma perform_inv {B A} (op : Op B) (r : Res A) (a : A) :
  outcome (perform op r) = Value a →
  r = Value a
  ∧ events (perform op r) = [{| ev_op := op; ev_raised := None |}].
Proof. cbn. by intros ->. Qed.

(** ** Subscripts of a dictionary *)

Lemma getitem_found {B V} (d : gmap string V) (key : string) (v : V) :
  d !! key = Some v → getitem (B := B) d key = mret v.
Proof. unfold getitem. by intros ->. Qed.

Lemma getitem_inv {B V} (d : gmap string V) (key : string) (v : V) :
  outcome (getitem (B := B) d key) = Value v → d !! key = Some v.
Proof.
  unfold getitem. destruct (d !! key); cbn; [by intros [= ->]|discriminate].
Qed.

Lemma mret_bind {B A C} (a : A) (k : A → Run B C) : mret a ≫= k = k a.
Proof. unfold mbind, run_mbind, run_bind. cbn. by destruct (k a). Qed.

(** ** What [print_backend_info] prints for the target *)

Section PrintTarget.
Context {B : Type} {runtime : Runtime B}.
Context (backend_info : gmap string PyVal) (t : Target).
Hypothesis info_target : backend_info !! "target" = Some (PyTarget t).

Lemma elem_of_events_bind_l {A C} (m : Run B A) (k : A → Run B C) ev :
  ev ∈ events m → ev ∈ events (m ≫= k).
Proof.
  intros Hev. destruct (outcome m) as [a|e] eqn:Ho.
  - rewrite (events_bind _ _ a Ho). apply elem_of_app. by left.
  - by rewrite (bind_raise _ _ e Ho).
Qed.

Lemma elem_of_events_bind_r {A C} (m : Run B A) (k : A → Run B C) a ev :
  outcome m = Value a → ev ∈ events (k a) → ev ∈ events (m ≫= k).
Proof.
  intros Ho Hev. rewrite (events_bind _ _ a Ho). apply elem_of_app. by right.
Qed.

Lemma info_entry_found (gate : string) (m : QargsMap) (qbits : Qargs)
    (entry : option InstructionProperties) :
  target_lookup t gate = Some m →
  qargs_lookup m qbits = Some entry →
  info_entry (B := B) backend_info gate qbits = ([], Value entry).
Proof using info_target.
  intros Hm Hq. unfold info_entry, getitem, val_getitem, target_getitem,
    qargs_getitem.
  rewrite info_target. unfold mbind, run_mbind, run_bind. cbn.
  rewrite Hm. cbn. by rewrite Hq.
Qed.

(** The inner loop of the printing: it returns, and each key whose entry
    is [None] gets the line without figures. *)
Lemma print_inner_loop (gate : string) (m : QargsMap) (qs : list Qargs) :
  target_lookup t gate = Some m →
  (∀ q, q ∈ qs → is_Some (qargs_lookup m q)) →
  let loop :=
    for_each qs (λ qbits _,
      e1 ← info_entry backend_info gate qbits;
      c ← (if not_None e1
           then e2 ← info_entry backend_info gate qbits; mret (not_None e2)
           else mret false);
      if (c : bool)
      then
        e3 ← info_entry backend_info gate qbits;
        d ← props_attr e3 "duration" duration;
        e4 ← info_entry backend_info gate qbits;
        e ← props_attr e4 "error" error;
        print (B := B)
              (tab +:+ tab +:+ "Qubit(s) " +:+ str_qargs qbits +:+
               ": duration=" +:+ str_optnum d +:+
               ", error=" +:+ str_optnum e)
      else
        print (tab +:+ tab +:+ "Qubit(s) " +:+ str_qargs qbits +:+
               ": duration=None, error=None")) tt in
  outcome loop = Value tt
  ∧ ∀ q, q ∈ qs → qargs_lookup m q = Some None →
      print_ok (tab +:+ tab +:+ "Qubit(s) " +:+ str_qargs q +:+
                ": duration=None, error=None") ∈ events loop.
Proof using info_target.
  intros Hm. induction qs as [|q qs IH]; intros Hqs loop.
  - split; [done|]. by intros q ?%elem_of_nil.
  - destruct (Hqs q) as [entry Hq]; [left|].
    destruct IH as [IHo IHe]; [intros q' Hq'; apply Hqs; by right|].
    subst loop. cbn [for_each].
    rewrite !(info_entry_found gate m q entry Hm Hq).
    split.
    + rewrite (outcome_bind _ _ tt); [done|]. by destruct entry.
    + intros q' [->|Hq']%elem_of_cons Hnone.
      * apply elem_of_events_bind_l. rewrite Hq in Hnone.
        injection Hnone as ->. left.
      * apply (elem_of_events_bind_r _ _ tt); [by destruct entry|].
        by apply IHe.
Qed.

(** The outer loop of the printing. *)
Lemma print_outer_loop (gs : list string) :
  (∀ g, g ∈ gs → is_Some (target_lookup t g)) →
  let loop :=
    for_each gs (λ gate _,
      print2 tab gate;;
      t ← getitem backend_info "target";
      m ← val_getitem t gate;
      for_each (qargs_keys m) (λ qbits _,
        e1 ← info_entry backend_info gate qbits;
        c ← (if not_None e1
             then e2 ← info_entry backend_info gate qbits; mret (not_None e2)
             else mret false);
        if (c : bool)
        then
          e3 ← info_entry backend_info gate qbits;
          d ← props_attr e3 "duration" duration;
          e4 ← info_entry backend_info gate qbits;
          e ← props_attr e4 "error" error;
          print (B := B)
                (tab +:+ tab +:+ "Qubit(s) " +:+ str_qargs qbits +:+
                 ": duration=" +:+ str_optnum d +:+
                 ", error=" +:+ str_optnum e)
        else
          print (tab +:+ tab +:+ "Qubit(s) " +:+ str_qargs qbits +:+
                 ": duration=None, error=None")) tt) tt in
  outcome loop = Value tt
  ∧ ∀ g m q, g ∈ gs → target_lookup t g = Some m →
      qargs_lookup m q = Some None →
      print_ok (tab +:+ tab +:+ "Qubit(s) " +:+ str_qargs q +:+
                ": duration=None, error=None") ∈ events loop.
Proof using info_target.
  induction gs as [|g gs IH]; intros Hgs loop.
  - split; [done|]. by intros g m q ?%elem_of_nil.
  - destruct (Hgs g) as [m Hm]; [left|].
    destruct IH as [IHo IHe]; [intros g' Hg'; apply Hgs; by right|].
    assert (∀ qs, qs = qargs_keys m →
              ∀ q, q ∈ qs → is_Some (qargs_lookup m q)) as Hkeys.
    { intros qs -> q Hq. by apply qargs_lookup_keys. }
    destruct (print_inner_loop g m (qargs_keys m) Hm (Hkeys _ eq_refl))
      as [Hino Hine].
    subst loop. cbn [for_each].
    assert (outcome (getitem (B := B) backend_info "target")
            = Value (PyTarget t)) as Hget.
    { unfold getitem. by rewrite info_target. }
    assert (outcome (val_getitem (B := B) (PyTarget t) g) = Value m) as Hsub.
    { cbn. unfold target_getitem. by rewrite Hm. }
    split.
    + rewrite (outcome_bind _ _ tt); [done|].
      rewrite (outcome_bind _ _ tt) by done.
      rewrite (outcome_bind _ _ _ Hget), (outcome_bind _ _ _ Hsub).
      apply Hino.
    + intros g' m' q [->|Hg']%elem_of_cons Hm' Hnone.
      * apply elem_of_events_bind_l.
        apply (elem_of_events_bind_r _ _ tt); [done|].
        apply (elem_of_events_bind_r _ _ _ _ Hget).
        apply (elem_of_events_bind_r _ _ _ _ Hsub).
        rewrite Hm in Hm'. injection Hm' as <-.
        apply Hine; [|done]. apply qargs_lookup_keys. by eexists.
      * apply (elem_of_events_bind_r _ _ tt); [|by apply (IHe g' m')].
        rewrite (outcome_bind _ _ tt) by done.
        rewrite (outcome_bind _ _ _ Hget), (outcome_bind _ _ _ Hsub).
        apply Hino.
Qed.

(** The run returns when the dictionary has the ten keys and the
    coupling map can be drawn: nothing in the target makes it fail. *)
Lemma print_backend_info_returns (id : positive) :
  (∀ key, key ∈ printed_keys → is_Some (backend_info !! key)) →
  backend_info !! "coupling_map" = Some (PyCouplingMap id) →
  draw id = Value tt →
  outcome (print_backend_info backend_info) = Value tt.
Proof using info_target.
  intros Hkeys Hcm Hdraw.
  assert (∀ key, key ∈ printed_keys →
                 ∃ v, outcome (getitem (B := B) backend_info key) = Value v)
    as Hget.
  { intros key Hkey. destruct (Hkeys key Hkey) as [v Hv]. exists v.
    by rewrite (getitem_found _ _ _ Hv). }
  assert (∀ g, g ∈ target_keys t → is_Some (target_lookup t g)) as Hlookups.
  { intros g Hg. by apply target_lookup_keys. }
  destruct (print_outer_loop _ Hlookups) as [Hloop _].
  unfold print_backend_info, print2.
  destruct (Hget "name") as [v1 H1]; [by repeat constructor|].
  rewrite (outcome_bind _ _ _ H1), (outcome_bind _ _ tt) by done.
  destruct (Hget "version") as [v2 H2]; [by repeat constructor|].
  rewrite (outcome_bind _ _ _ H2), (outcome_bind _ _ tt) by done.
  destruct (Hget "online_date") as [v3 H3]; [by repeat constructor|].
  rewrite (outcome_bind _ _ _ H3), (outcome_bind _ _ tt) by done.
  destruct (Hget "max_circuits_per_job") as [v4 H4];
    [by repeat constructor|].
  rewrite (outcome_bind _ _ _ H4), (outcome_bind _ _ tt) by done.
  destruct (Hget "num_qubits") as [v5 H5]; [by repeat constructor|].
  rewrite (outcome_bind _ _ _ H5), (outcome_bind _ _ tt) by done.
  rewrite (outcome_bind _ _ tt) by done.
  destruct (Hget "syst_time_resolution_input_signals") as [v6 H6];
    [by repeat constructor|].
  rewrite (outcome_bind _ _ _ H6), (outcome_bind _ _ tt) by done.
  destruct (Hget "syst_time_resolution_output_signals") as [v7 H7];
    [by repeat constructor|].
  rewrite (outcome_bind _ _ _ H7), (outcome_bind _ _ tt) by done.
  rewrite (outcome_bind _ _ tt) by done.
  rewrite (getitem_found _ _ _ Hcm), mret_bind.
  rewrite (outcome_bind _ _ tt) by (cbn; by rewrite Hdraw).
  destruct (Hget "operation_names") as [v9 H9]; [by repeat constructor|].
  rewrite (outcome_bind _ _ _ H9), (outcome_bind _ _ tt) by done.
  rewrite (outcome_bind _ _ tt) by done.
  rewrite (outcome_bind _ _ (PyTarget t))
    by (by rewrite (getitem_found _ _ _ info_target)).
  rewrite (outcome_bind _ _ (target_keys t)) by done.
  apply Hloop.
Qed.

(** A run that returned has printed the line without figures for every
    entry of the target that is [None]. *)
Lemma print_backend_info_returned_lines (gate : string) (m : QargsMap)
    (qbits : Qargs) :
  outcome (print_backend_info backend_info) = Value tt →
  target_lookup t gate = Some m →
  qargs_lookup m qbits = Some None →
  print_ok (tab +:+ tab +:+ "Qubit(s) " +:+ str_qargs qbits +:+
            ": duration=None, error=None")
  ∈ events (print_backend_info backend_info).
Proof using info_target.
  intros H Hm Hq.
  assert (∀ g, g ∈ target_keys t → is_Some (target_lookup t g)) as Hlookups.
  { intros g Hg. by apply target_lookup_keys. }
  destruct (print_outer_loop _ Hlookups) as [_ Hloop].
  unfold print_backend_info, print2 in *.
  do 21 (let v := fresh "v" in
         let Hv := fresh "Hv" in
         apply bind_inv in H as (v & Hv & H & _);
         apply (elem_of_events_bind_r _ _ v _ Hv); clear Hv).
  apply bind_inv in H as (vt & Hv%getitem_inv & H & _).
  rewrite info_target in Hv. injection Hv as <-.
  apply (elem_of_events_bind_r _ _ (PyTarget t));
    [by rewrite (getitem_found _ _ _ info_target)|].
  apply bind_inv in H as (gates & Hgates & H & _).
  apply (elem_of_events_bind_r _ _ gates _ Hgates).
  cbn in Hgates. injection Hgates as <-.
  apply (Hloop gate m qbits); [|done|done].
  apply target_lookup_keys. by eexists.
Qed.

End PrintTarget.

(** The run of [print_backend_info] on what [get_backend_info] returned
    for a snapshot whose coupling map can be drawn. *)
Lemma print_backend_info_snapshot {B : Type} {runtime : Runtime B}
    (b : FakeBackendV2) (id : positive) (backend_info : gmap string PyVal) :
  fake_coupling_map b = PyCouplingMap id →
  draw id = Value tt →
  outcome (get_backend_info (Some b)) = Value backend_info →
  backend_info !! "target" = Some (PyTarget (fake_target b))
  ∧ outcome (print_backend_info backend_info) = Value tt.
Proof.
  intros Hcm Hdraw Hinfo. cbn in Hinfo. injection Hinfo as <-. rewrite Hcm.
  assert (∀ d : gmap string PyVal,
            d !! "target" = Some (PyTarget (fake_target b)) →
            (∀ key, key ∈ printed_keys → is_Some (d !! key)) →
            d !! "coupling_map" = Some (PyCouplingMap id) →
            d !! "target" = Some (PyTarget (fake_target b))
            ∧ outcome (print_backend_info d) = Value tt) as Hany.
  { intros d Htarget Hkeys Hmap. split; [done|].
    by apply (print_backend_info_returns d (fake_target b) Htarget id). }
  apply Hany; [by simplify_map_eq| |by simplify_map_eq].
  intros key Hkey. unfold printed_keys in Hkey.
  repeat (apply elem_of_cons in Hkey as [->|Hkey];
          [eexists; by simplify_map_eq|]).
  by apply elem_of_nil in Hkey.
Qed.

(** C10: in [get_gate_errors] and in [print_backend_info] the fields
    [.error] and [.duration] of a target entry are read only when the
    entry is an object: whatever the SDK, the backend or the dictionary,
    no run of either function reads one of the two fields on [None].
    For an entry of the target that is [None], [get_gate_errors] stores
    [None] under the gate and the qubit tuple of the entry, and every run
    of [print_backend_info] that returns has printed the line
    [duration=None, error=None] for it; on the description of the
    backend the run does return as soon as [draw()] on its coupling map
    does. *)
Theorem entry_fields_read_after_check {P B : Type}
    {backend_api : BackendV2 B} {provider_api : Provider P B}
    {runtime : Runtime B}
    (backend : option B) (backend_info : gmap string PyVal)
    (b : FakeBackendV2) (gate : string) (m : QargsMap) (qbits : Qargs) :
  Forall not_field_of_None (events (get_gate_errors backend))
  ∧ Forall not_field_of_None (events (print_backend_info backend_info))
  ∧ (target_lookup (fake_target b) gate = Some m →
     qargs_lookup m qbits = Some None →
     (∃ (ge : gmap string (gmap Qargs (option Number)))
        (inner : gmap Qargs (option Number)),
        outcome (get_gate_errors (Some b)) = Value ge
        ∧ ge !! gate = Some inner
        ∧ inner !! qbits = Some None)
     ∧ (backend_info !! "target" = Some (PyTarget (fake_target b)) →
        outcome (print_backend_info backend_info) = Value tt →
        print_ok (tab +:+ tab +:+ "Qubit(s) " +:+ str_qargs qbits +:+
                  ": duration=None, error=None")
        ∈ events (print_backend_info backend_info))
     ∧ (∀ id : positive,
          fake_coupling_map b = PyCouplingMap id →
          draw id = Value tt →
          outcome (get_backend_info (Some b)) = Value backend_info →
          outcome (print_backend_info backend_info) = Value tt
          ∧ print_ok (tab +:+ tab +:+ "Qubit(s) " +:+ str_qargs qbits +:+
                      ": duration=None, error=None")
            ∈ events (print_backend_info backend_info))).
Proof.
  split.
  { eapply Forall_impl; [apply guard_get_gate_errors|].
    apply helper_event_not_field. }
  split.
  { eapply Forall_impl; [apply guard_print_backend_info|].
    apply helper_event_not_field. }
  intros Hm Hq. split; [|split].
  - destruct (get_gate_errors_lookups b) as (ge & Hge & _ & Hgates).
    destruct (Hgates gate m Hm) as (inner & Hinner & _ & Hentries).
    exists ge, inner. split; [done|]. split; [done|].
    apply (Hentries qbits None Hq).
  - intros Htarget Hout.
    by apply (print_backend_info_returned_lines backend_info (fake_target b)
                Htarget gate m qbits).
  - intros id Hcm Hdraw Hinfo.
    destruct (print_backend_info_snapshot b id backend_info Hcm Hdraw Hinfo)
      as [Htarget Hout].
    split; [done|].
    by apply (print_backend_info_returned_lines backend_info (fake_target b)
                Htarget gate m qbits).
Qed.

Lemma entry_fields_read_after_check_witness :
  Forall not_field_of_None
    (events (get_gate_errors (Some example_melbourne)))
  ∧ Forall not_field_of_None
      (events (print_backend_info (runtime := local_runtime example_sdk)
                                  (backend_info_of example_melbourne)))
  ∧ (∃ (ge : gmap string (gmap Qargs (option Number)))
       (inner : gmap Qargs (option Number)),
       outcome (get_gate_errors (Some example_melbourne)) = Value ge
       ∧ ge !! "cx" = Some inner
       ∧ inner !! Some [1; 0] = Some None)
  ∧ outcome (print_backend_info (runtime := local_runtime example_sdk)
                                (backend_info_of example_melbourne))
    = Value tt
  ∧ print_ok (tab +:+ tab +:+ "Qubit(s) (1, 0): duration=None, error=None")
    ∈ events (print_backend_info (runtime := local_runtime example_sdk)
                                 (backend_info_of example_melbourne)).
Proof.
  destruct (entry_fields_read_after_check
              (P := FakeProvider) (runtime := local_runtime example_sdk)
              (Some example_melbourne) (backend_info_of example_melbourne)
              example_melbourne
              "cx" [(Some [0; 1], Some example_props); (Some [1; 0], None)]
              (Some [1; 0]))
    as (Hguard & Hguard' & Hnone).
  destruct (Hnone eq_refl eq_refl) as (Hstored & _ & Hprinted).
  split; [exact Hguard|]. split; [exact Hguard'|]. split; [exact Hstored|].
  exact (Hprinted 2%positive eq_refl eq_refl eq_refl).
Defined.

(** On a snapshot of one qubit, whose coupling map is [None],
    [print_backend_info] stops at [.draw()], before the target. *)
Example print_backend_info_isolated :
  print_backend_info (runtime := local_runtime example_sdk)
                     (backend_info_of example_isolated)
  = ([print_ok "Name:  fake_isolated";
      print_ok "Version:  0.0.0";
      print_ok "Online date:  None";
      print_ok "Max circuits per job:  None";
      print_ok "Number of qubits:  1";
      print_ok "System time resolution:";
      print_ok (tab +:+ "Input signals:  None");
      print_ok (tab +:+ "Output signals:  None");
      print_ok "Coupling map:";
      {| ev_op := GetAttr RNone "draw";
         ev_raised := Some (AttributeError "draw") |}],
     Raise (AttributeError "draw")).
Proof. vm_compute. reflexivity. Qed.

(** ** The [__main__] block *)

Section Main.
Context {P B : Type} {backend_api : BackendV2 B} {provider_api : Provider P B}
  {runtime : Runtime B} {cloud : Cloud P}.

Lemma with_exit_inv {A} (exit : Run B unit) (body : Run B A) (a : A) :
  outcome (with_exit exit body) = Value a →
  outcome exit = Value tt
  ∧ outcome body = Value a
  ∧ events (with_exit exit body) = events body ++ events exit.
Proof.
  unfold with_exit, outcome, events.
  destruct body as [log r], exit as [log' x]. cbn.
  destruct x as [[]|e]; [done|discriminate].
Qed.

Lemma calls_to_app (callee : string) (l1 l2 : list (Event B)) :
  calls_to callee (l1 ++ l2) = calls_to callee l1 ++ calls_to callee l2.
Proof.
  induction l1 as [|ev l1 IH]; [done|]. cbn.
  destruct (ev_op ev); try done. destruct (_ =? _); [|done].
  cbn. by rewrite IH.
Qed.

Lemma calls_to_none (callee : string) (log : list (Event B)) :
  Forall (not_call callee) log → calls_to callee log = [].
Proof.
  induction 1 as [|ev log Hev _ IH]; [done|]. cbn.
  destruct (ev_op ev) as [| | |c args] eqn:Hop; try done.
  destruct (String.eqb_spec c callee) as [->|]; [|done].
  by destruct (Hev args).
Qed.

Lemma helper_event_not_call (callee : string) (ev : Event B) :
  callee ∉ ["backends"; "draw"; "Options"; "NoiseModel.from_backend"] →
  helper_event ev → not_call callee ev.
Proof.
  unfold helper_event, not_call. intros Hc Hev args Hop.
  rewrite Hop in Hev. cbn in Hev. apply Hc.
  repeat (apply orb_true_iff in Hev as [Hev|Hev];
          [apply String.eqb_eq in Hev as ->; set_solver|]).
  discriminate.
Qed.

(** Inversion of one step of a run that returned, keeping the log. *)
Ltac step_run H Hlog v Hv :=
  let He := fresh "He" in
  apply bind_inv in H as (v & Hv & H & He);
  rewrite He in Hlog; clear He; cbv beta in H, Hlog.

Ltac step_call H Hlog v Hv :=
  step_run H Hlog v Hv;
  let He := fresh "He" in
  apply perform_inv in Hv as [Hv He];
  rewrite He in Hlog; clear He.

(** The body of one [with Session(...)] block that returned. *)
Lemma session_block_inv (k : nat) (simulator session : PyVal)
    (options : Options) :
  let block :=
    with_exit (B := B)
      (perform (Call "Session.__exit__" [AVal session])
               (Session_exit (P := P) k session))
      (sampler ← perform (Call "Sampler" [AVal session; AOptions options])
                         (Sampler (P := P) k session options);
       tqc ← perform (Call "transpile" [ACircuit qc; AVal simulator])
                     (transpile (P := P) k qc simulator);
       job ← perform (Call "run" [AVal sampler; AVal tqc])
                     (Sampler_run (P := P) k sampler tqc);
       result ← perform (Call "result" [AVal job]) (Job_result (P := P) k job);
       print (str result)) in
  outcome block = Value tt →
  ∃ sampler tqc job result : PyVal,
    Sampler (P := P) k session options = Value sampler
    ∧ transpile (P := P) k qc simulator = Value tqc
    ∧ Sampler_run (P := P) k sampler tqc = Value job
    ∧ Job_result (P := P) k job = Value result
    ∧ Session_exit (P := P) k session = Value tt
    ∧ events block
      = [call_ok "Sampler" [AVal session; AOptions options];
         call_ok "transpile" [ACircuit qc; AVal simulator];
         call_ok "run" [AVal sampler; AVal tqc];
         call_ok "result" [AVal job];
         print_ok (str result);
         call_ok "Session.__exit__" [AVal session]].
Proof.
  intros block H. remember (events block) as l eqn:Hlog. subst block.
  apply with_exit_inv in H as (Hexit & Hbody & He). rewrite He in Hlog.
  clear He.
  apply perform_inv in Hexit as [Hexit He]. rewrite He in Hlog. clear He.
  match type of Hbody with
  | outcome ?body = _ => remember (events body) as lb eqn:Hlb
  end.
  step_call Hbody Hlb sampler Hsampler.
  step_call Hbody Hlb tqc Htqc.
  step_call Hbody Hlb job Hjob.
  step_call Hbody Hlb res Hres.
  exists sampler, tqc, job, res.
  repeat (split; [done|]). rewrite Hlog, Hlb. reflexivity.
Qed.

(** [create_options] that returned, without and with a backend. *)
Lemma create_options_None_inv (n : Z) (o : Options) :
  outcome (create_options n None) = Value o →
  ∃ o0, new_Options = Value o0
        ∧ shots (execution o) = PyInt n
        ∧ simulator o = simulator o0
        ∧ calls_to "NoiseModel.from_backend" (events (create_options n None))
          = [].
Proof.
  unfold create_options. destruct new_Options as [o0|e]; [|discriminate].
  cbn. intros [= <-]. by exists o0.
Qed.

Lemma create_options_Some_inv (n : Z) (b : B) (o : Options) :
  outcome (create_options n (Some b)) = Value o →
  ∃ (d : gmap string PyVal) (noise_model : PyVal),
    NoiseModel_from_backend b = Value noise_model
    ∧ shots (execution o) = PyInt n
    ∧ simulator o = SimulatorDict d
    ∧ d !! "noise_model" = Some noise_model.
Proof.
  unfold create_options. intros H.
  apply bind_inv in H as (o0 & _ & H & _). cbv beta zeta in H.
  apply bind_inv in H as (nm & Hnm & H & _).
  apply perform_inv in Hnm as [Hnm _].
  apply bind_inv in H as (bg & _ & H & _).
  apply bind_inv in H as (cm & _ & H & _).
  cbn in H. injection H as <-. eexists _, nm. cbn.
  split; [done|]. split; [done|]. split; [reflexivity|].
  by simplify_map_eq.
Qed.

(** The function tests return only if a backend named "fake_melbourne"
    was found: [get_backend_info(None)] raises. *)
Lemma function_tests_inv (m : option B) :
  outcome function_tests = Value m → ∃ b, m = Some b.
Proof.
  unfold function_tests. intros H.
  apply bind_inv in H as (fp & _ & H & _).
  apply bind_inv in H as (fbs & _ & H & _).
  apply bind_inv in H as (fm & _ & H & _).
  apply bind_inv in H as (fa & _ & H & _).
  apply bind_inv in H as (u & _ & H & _).
  apply bind_inv in H as (info & Hinfo & H & _).
  apply bind_inv in H as (u1 & _ & H & _).
  apply bind_inv in H as (info' & _ & H & _).
  apply bind_inv in H as (u2 & _ & H & _).
  cbn in H. injection H as <-.
  destruct fm as [b|]; [by exists b|]. discriminate.
Qed.

Lemma run_not_local :
  "run" ∉ ["backends"; "draw"; "Options"; "NoiseModel.from_backend"].
Proof.
  intros Hin.
  repeat (apply elem_of_cons in Hin as [Hin|Hin]; [discriminate|]).
  by apply elem_of_nil in Hin.
Qed.

(** Nothing is submitted during the function tests. *)
Lemma function_tests_no_run :
  Forall (not_call "run") (events function_tests).
Proof.
  assert (∀ ev : Event B, helper_event ev → not_call "run" ev) as Hhelper.
  { intros ev. apply helper_event_not_call, run_not_local. }
  unfold function_tests.
  apply all_bind; [by repeat constructor|]. intros fp _.
  apply all_bind; [by repeat constructor|]. intros fbs _.
  apply all_bind.
  { eapply Forall_impl; [apply guard_search_backend|done]. }
  intros fm _. apply all_bind.
  { eapply Forall_impl; [apply guard_search_backend|done]. }
  intros fa _. apply all_bind; [by repeat constructor|]. intros _ _.
  apply all_bind.
  { eapply Forall_impl; [apply guard_get_backend_info|done]. }
  intros info _. apply all_bind.
  { eapply Forall_impl; [apply guard_print_backend_info|done]. }
  intros _ _. apply all_bind.
  { eapply Forall_impl; [apply guard_get_backend_info|done]. }
  intros info' _. apply all_bind.
  { eapply Forall_impl; [apply guard_print_backend_info|done]. }
  intros _ _. constructor.
Qed.

Lemma create_options_no_run (n : Z) (backend : option B) :
  calls_to "run" (events (create_options n backend)) = [].
Proof.
  apply calls_to_none. eapply Forall_impl; [apply guard_create_options|].
  intros ev. apply helper_event_not_call, run_not_local.
Qed.

(** C7: a run of the script that reaches its end has built the circuit
    [h(0); x(1); cx(0, 1); measure_all()] on two qubits and submitted it
    exactly twice: once through the sampler that [Sampler] made from the
    first session and the options of [create_options(nb_shots)], which
    carry no noise model, and once through the sampler that [Sampler] made
    from the second session and the options of
    [create_options(nb_shots, fake_Melbourne)], which carry the noise
    model of that backend.  Both sessions were opened on the service and
    the simulator that [get_backend("ibmq_qasm_simulator")] returned; each
    time the circuit is transpiled for that simulator and run between the
    opening and the end of its session, and the result of the job is
    printed. *)
Theorem main_submits_circuit_twice :
  outcome main = Value tt →
  ∃ (fake_Melbourne : B) (ideal_options noisy_options : Options)
    (ibm_quantum_service qasm_simulator : PyVal)
    (session0 sampler0 tqc0 job0 result0 : PyVal)
    (session1 sampler1 tqc1 job1 result1 : PyVal),
    qc = {| qc_qubits := 2; qc_clbits := 2;
            qc_data := [Gate_h 0; Gate_x 1; Gate_cx 0 1; Measure_all] |}
    ∧ outcome function_tests = Value (Some fake_Melbourne)
    ∧ outcome (create_options nb_shots None) = Value ideal_options
    ∧ (∃ o, new_Options = Value o
            ∧ shots (execution ideal_options) = PyInt 1024
            ∧ simulator ideal_options = simulator o
            ∧ calls_to "NoiseModel.from_backend"
                (events (create_options nb_shots None)) = [])
    ∧ outcome (create_options nb_shots (Some fake_Melbourne))
      = Value noisy_options
    ∧ (∃ (d : gmap string PyVal) (noise_model : PyVal),
         NoiseModel_from_backend fake_Melbourne = Value noise_model
         ∧ shots (execution noisy_options) = PyInt 1024
         ∧ simulator noisy_options = SimulatorDict d
         ∧ d !! "noise_model" = Some noise_model)
    ∧ QiskitRuntimeService (P := P) = Value ibm_quantum_service
    ∧ get_backend (P := P) ibm_quantum_service "ibmq_qasm_simulator"
      = Value qasm_simulator
    ∧ Session (P := P) 0 ibm_quantum_service qasm_simulator = Value session0
    ∧ Sampler (P := P) 0 session0 ideal_options = Value sampler0
    ∧ transpile (P := P) 0 qc qasm_simulator = Value tqc0
    ∧ Sampler_run (P := P) 0 sampler0 tqc0 = Value job0
    ∧ Job_result (P := P) 0 job0 = Value result0
    ∧ Session_exit (P := P) 0 session0 = Value tt
    ∧ Session (P := P) 1 ibm_quantum_service qasm_simulator = Value session1
    ∧ Sampler (P := P) 1 session1 noisy_options = Value sampler1
    ∧ transpile (P := P) 1 qc qasm_simulator = Value tqc1
    ∧ Sampler_run (P := P) 1 sampler1 tqc1 = Value job1
    ∧ Job_result (P := P) 1 job1 = Value result1
    ∧ Session_exit (P := P) 1 session1 = Value tt
    ∧ events main
      = events function_tests
        ++ [print_ok (newline +:+ " SIMULATIONS");
            call_ok "QiskitRuntimeService"
              [AStr "ibm_quantum"; AStr EmptyString; AStr "ibm-q/open/main"];
            call_ok "get_backend"
              [AVal ibm_quantum_service; AStr "ibmq_qasm_simulator"]]
        ++ events (create_options nb_shots None)
        ++ events (create_options nb_shots (Some fake_Melbourne))
        ++ experiment_log ">> Running experiments on ideal backend..."
             ibm_quantum_service qasm_simulator session0 sampler0 tqc0 job0
             ideal_options qc (str result0)
        ++ experiment_log ">> Running experiments on noisy backend..."
             ibm_quantum_service qasm_simulator session1 sampler1 tqc1 job1
             noisy_options qc (str result1)
    ∧ calls_to "run" (events main)
      = [[AVal sampler0; AVal tqc0]; [AVal sampler1; AVal tqc1]].
Proof.
  intros H. remember (events main) as l eqn:Hlog. unfold main in H, Hlog.
  step_run H Hlog fm Hfm.
  destruct (function_tests_inv fm Hfm) as [fake_Melbourne ->].
  unfold simulations in H, Hlog.
  step_run H Hlog u0 Hu0. clear Hu0. destruct u0.
  step_call H Hlog service Hservice.
  step_call H Hlog sim Hsim.
  step_run H Hlog ideal Hideal.
  step_run H Hlog noisy Hnoisy.
  step_run H Hlog u1 Hu1. clear Hu1. destruct u1.
  step_call H Hlog session0 Hsession0.
  step_run H Hlog u2 Hblock0. destruct u2.
  destruct (session_block_inv 0 sim session0 ideal Hblock0)
    as (sampler0 & tqc0 & job0 & result0 & Hsampler0 & Htqc0 & Hjob0
        & Hresult0 & Hexit0 & Hev0).
  rewrite Hev0 in Hlog. clear Hev0 Hblock0.
  step_run H Hlog u3 Hu3. clear Hu3. destruct u3.
  step_call H Hlog session1 Hsession1.
  destruct (session_block_inv 1 sim session1 noisy H)
    as (sampler1 & tqc1 & job1 & result1 & Hsampler1 & Htqc1 & Hjob1
        & Hresult1 & Hexit1 & Hev1).
  rewrite Hev1 in Hlog. clear Hev1 H.
  exists fake_Melbourne, ideal, noisy, service, sim,
    session0, sampler0, tqc0, job0, result0,
    session1, sampler1, tqc1, job1, result1.
  split; [reflexivity|]. split; [done|]. split; [done|].
  split; [by apply create_options_None_inv|]. split; [done|].
  split; [by apply create_options_Some_inv|].
  do 14 (split; [done|]).
  assert (l = events function_tests
              ++ [print_ok (newline +:+ " SIMULATIONS");
                  call_ok "QiskitRuntimeService"
                    [AStr "ibm_quantum"; AStr EmptyString; AStr "ibm-q/open/main"];
                  call_ok "get_backend"
                    [AVal service; AStr "ibmq_qasm_simulator"]]
              ++ events (create_options nb_shots None)
              ++ events (create_options nb_shots (Some fake_Melbourne))
              ++ experiment_log ">> Running experiments on ideal backend..."
                   service sim session0 sampler0 tqc0 job0 ideal qc
                   (str result0)
              ++ experiment_log ">> Running experiments on noisy backend..."
                   service sim session1 sampler1 tqc1 job1 noisy qc
                   (str result1)) as ->.
  { rewrite Hlog. reflexivity. }
  split; [done|].
  rewrite !calls_to_app, !create_options_no_run.
  by rewrite (calls_to_none _ _ function_tests_no_run).
Qed.

(** A run of the script that returns met no exception on its way. *)
Lemma propagates_recovers_nothing {A} (r : Run B A) :
  propagates r → recovers_nothing r.
Proof. unfold propagates, recovers_nothing. intros Hr a Ha. by rewrite Ha in Hr. Qed.

Lemma recovers_nothing_bind {A C} (m : Run B A) (k : A → Run B C) :
  recovers_nothing m →
  (∀ a, recovers_nothing (k a)) →
  recovers_nothing (m ≫= k).
Proof.
  intros Hm Hk c Hc. apply bind_inv in Hc as (a & Ha & Hc & ->).
  apply Forall_app. split; [by apply (Hm a)|by apply (Hk a c)].
Qed.

Lemma recovers_nothing_with_exit {A} (exit : Run B unit) (body : Run B A) :
  recovers_nothing exit →
  recovers_nothing body →
  recovers_nothing (with_exit exit body).
Proof.
  intros Hexit Hbody a Ha. apply with_exit_inv in Ha as (Hx & Hb & ->).
  apply Forall_app. split; [by apply (Hbody a)|by apply (Hexit tt)].
Qed.

Ltac recover_step :=
  first
    [ apply propagates_recovers_nothing;
      first [ apply propagates_search_backend
            | apply propagates_get_backend_info
            | apply propagates_print_backend_info
            | apply propagates_create_options
            | apply propagates_perform
            | apply propagates_print
            | apply (propagates_ret (B := B)) ]
    | apply recovers_nothing_with_exit
    | apply recovers_nothing_bind; [|intros ?] ].

Lemma main_recovers_nothing : recovers_nothing main.
Proof. unfold main, function_tests, simulations. repeat recover_step. Qed.

End Main.

Lemma main_submits_circuit_twice_witness :
  outcome (main (runtime := local_runtime example_sdk)
                (cloud := example_cloud)) = Value tt
  ∧ ∃ (ideal_options noisy_options : Options)
      (session0 sampler0 tqc0 session1 sampler1 tqc1 : PyVal),
      @Sampler FakeProvider example_cloud 0 session0 ideal_options
      = Value sampler0
      ∧ @Sampler FakeProvider example_cloud 1 session1 noisy_options
        = Value sampler1
      ∧ calls_to "run" (events (main (runtime := local_runtime example_sdk)
                                     (cloud := example_cloud)))
        = [[AVal sampler0; AVal tqc0]; [AVal sampler1; AVal tqc1]].
Proof.
  assert (outcome (main (runtime := local_runtime example_sdk)
                        (cloud := example_cloud)) = Value tt) as Hmain
    by (vm_compute; reflexivity).
  split; [exact Hmain|].
  destruct (main_submits_circuit_twice
              (runtime := local_runtime example_sdk) (cloud := example_cloud)
              Hmain)
    as (fm & ideal & noisy & service & sim
        & session0 & sampler0 & tqc0 & job0 & result0
        & session1 & sampler1 & tqc1 & job1 & result1
        & _ & _ & _ & _ & _ & _ & _ & _ & _ & Hsampler0 & _ & _ & _ & _
        & _ & Hsampler1 & _ & _ & _ & _ & _ & Hcalls).
  exists ideal, noisy, session0, sampler0, tqc0, session1, sampler1, tqc1.
  split; [exact Hsampler0|]. split; [exact Hsampler1|]. exact Hcalls.
Defined.

(** The two submissions of the example run. *)
Example main_example_submissions :
  calls_to "run" (events (main (runtime := local_runtime example_sdk)
                               (cloud := example_cloud)))
  = [[AVal (PyObj 25); AVal (PyObj 27)]; [AVal (PyObj 26); AVal (PyObj 28)]].
Proof. vm_compute. reflexivity. Qed.

(** ** The helpers on the example objects *)

Example search_backend_example :
  outcome (search_backend example_provider "fake_armonk")
  = Value (Some example_armonk).
Proof. reflexivity. Qed.

Example get_backend_info_example :
  get_backend_info (Some example_armonk)
  = (read_ok example_armonk <$>
       ["name"; "backend_version"; "online_date"; "dt"; "dtm";
        "max_circuits"; "num_qubits"; "coupling_map"; "operation_names";
        "instruction_durations"; "instruction_schedule_map"; "target"],
     Value (backend_info_of example_armonk)).
Proof. reflexivity. Qed.

Example print_backend_info_example :
  print_backend_info (runtime := local_runtime example_sdk)
                     (backend_info_of example_armonk)
  = ([print_ok "Name:  fake_armonk";
      print_ok "Version:  0.0.0";
      print_ok "Online date:  <object>";
      print_ok "Max circuits per job:  None";
      print_ok "Number of qubits:  1";
      print_ok "System time resolution:";
      print_ok (tab +:+ "Input signals:  float:4472406533629990549");
      print_ok (tab +:+ "Output signals:  float:4472406533629990549");
      print_ok "Coupling map:";
      call_ok "draw" [AVal (PyCouplingMap 7)];
      print_ok "Operations names:  <object>";
      print_ok "Target:";
      print_ok (tab +:+ " rz");
      {| ev_op := GetAttr (RProps example_rz_props) "duration";
         ev_raised := None |};
      {| ev_op := GetAttr (RProps example_rz_props) "error";
         ev_raised := None |};
      print_ok (tab +:+ tab +:+ "Qubit(s) (0,): duration=float:0, error=0");
      print_ok (tab +:+ " measure");
      print_ok (tab +:+ tab +:+ "Qubit(s) (0,): duration=None, error=None")],
     Value tt).
Proof. vm_compute. reflexivity. Qed.

Example create_options_example :
  create_options (runtime := local_runtime example_sdk) 1024
                 (Some example_melbourne)
  = ([call_ok "Options" [];
      call_ok "NoiseModel.from_backend" [ABackend example_melbourne];
      read_ok example_melbourne "operation_names";
      read_ok example_melbourne "coupling_map"],
     Value {| execution := {| shots := PyInt 1024; init_qubits := PyObj 16 |};
              optimization_level := PyInt 0;
              resilience_level := PyInt 0;
              simulator :=
                SimulatorDict
                  (<["coupling_map" := PyCouplingMap 2]>
                  (<["basis_gates" := PyObj 3]>
                  (<["noise_model" := PyObj 18]> ∅))) |}).
Proof. reflexivity. Qed.

Example create_options_default_example :
  create_options (runtime := local_runtime example_sdk) 1024 None
  = ([call_ok "Options" []],
     Value {| execution := {| shots := PyInt 1024; init_qubits := PyObj 16 |};
              optimization_level := PyInt 0;
              resilience_level := PyInt 0;
              simulator := SimulatorOptions (PyObj 17) |}).
Proof. reflexivity. Qed.

(** ** Exceptions through the helpers and the script *)

(** C6: none of the five helpers catches or changes an exception.  For
    every SDK, every provider, backend reference, dictionary and shot
    count, the run of each helper ends in an exception exactly when one of
    the operations it performed raised; that operation is the last one it
    performed (nothing is retried or recovered) and the helper raises the
    very same exception.  The [__main__] block recovers from nothing
    either: a run of it that returns met no exception. *)
Theorem helpers_propagate_exceptions {P B : Type}
    {backend_api : BackendV2 B} {provider_api : Provider P B}
    {runtime : Runtime B} {cloud : Cloud P}
    (provider : P) (searched_backend_name : string) (backend : option B)
    (backend_info : gmap string PyVal) (nb_shots : Z) :
  propagates (search_backend provider searched_backend_name)
  ∧ propagates (get_backend_info backend)
  ∧ propagates (print_backend_info backend_info)
  ∧ propagates (get_gate_errors backend)
  ∧ propagates (create_options nb_shots backend)
  ∧ recovers_nothing (main (cloud := cloud)).
Proof.
  split; [apply propagates_search_backend|].
  split; [apply propagates_get_backend_info|].
  split; [apply propagates_print_backend_info|].
  split; [apply propagates_get_gate_errors|].
  split; [apply propagates_create_options|].
  apply main_recovers_nothing.
Qed.

Lemma helpers_propagate_exceptions_witness :
  propagates
    (get_backend_info (backend_api := backend_without_dtm)
                      (Some example_armonk))
  ∧ quiet (events (main (runtime := local_runtime example_sdk)
                        (cloud := example_cloud))).
Proof.
  split.
  - exact (proj1 (proj2
             (helpers_propagate_exceptions
                (backend_api := backend_without_dtm)
                (runtime := local_runtime example_sdk)
                (cloud := example_cloud)
                example_provider "fake_armonk" (Some example_armonk) ∅ 1024))).
  - destruct (helpers_propagate_exceptions
                (runtime := local_runtime example_sdk)
                (cloud := example_cloud)
                example_provider "fake_armonk" (Some example_armonk) ∅ 1024)
      as (_ & _ & _ & _ & _ & Hmain).
    apply (Hmain tt). vm_compute. reflexivity.
Defined.

(** An exception of the SDK on its way through [get_backend_info]: the
    fifth read raises, the seven others are not attempted. *)
Example get_backend_info_without_dtm :
  get_backend_info (backend_api := backend_without_dtm) (Some example_armonk)
  = ((read_ok example_armonk <$> ["name"; "backend_version"; "online_date"; "dt"])
     ++ [{| ev_op := GetAttr (RBackend example_armonk) "dtm";
            ev_raised := Some (SdkError "NotImplementedError" EmptyString) |}],
     Raise (SdkError "NotImplementedError" EmptyString)).
Proof. reflexivity. Qed.

(** [None] in place of a backend: the first read raises. *)
Example get_backend_info_None :
  get_backend_info (B := FakeBackendV2) None
  = ([{| ev_op := GetAttr RNone "name";
         ev_raised := Some (AttributeError "name") |}],
     Raise (AttributeError "name")).
Proof. reflexivity. Qed.

(** * Further properties of the helpers and of the script *)

(** ** Looking a backend up and describing it *)

Lemma last_match {A} (Q : A → Prop) `{!∀ x, Decision (Q x)}
    (l1 l2 : list A) (x : A) :
  Q x → (∀ y, y ∈ l2 → ¬ Q y) → last (filter Q (l1 ++ x :: l2)) = Some x.
Proof.
  intros Hx Hl2.
  assert (filter Q l2 = []) as Hnil.
  { destruct (filter Q l2) as [|y l] eqn:Hf; [done|]. exfalso.
    assert (y ∈ filter Q l2) as Hy by (rewrite Hf; left).
    apply list_elem_of_filter in Hy as [Hy Hin]. by apply (Hl2 y). }
  rewrite filter_app, filter_cons_True, Hnil by done.
  apply last_snoc.
Qed.

Lemma no_match {A} (Q : A → Prop) `{!∀ x, Decision (Q x)} (l : list A) :
  (∀ y, y ∈ l → ¬ Q y) → last (filter Q l) = None.
Proof.
  intros Hl. apply last_None.
  destruct (filter Q l) as [|y l'] eqn:Hf; [done|]. exfalso.
  assert (y ∈ filter Q l) as Hy by (rewrite Hf; left).
  apply list_elem_of_filter in Hy as [Hy Hin]. by apply (Hl y).
Qed.

(** X1: [get_backend_info(search_backend(provider, name))], as lines
    198-209 chain the two helpers.  When no backend of the provider bears
    the name the chain raises [AttributeError] at the read of [.name] on
    [None]; when some do, it returns the description of the last of
    them. *)
Theorem info_of_searched_backend (p : FakeProvider) (s : string) :
  ((∀ b, b ∈ fake_backends p → fake_name b ≠ s) →
   (searched ← search_backend p s; get_backend_info searched)
   = (events (search_backend p s)
      ++ [{| ev_op := GetAttr RNone "name";
             ev_raised := Some (AttributeError "name") |}],
      Raise (AttributeError "name")))
  ∧ (∀ l1 l2 b,
       fake_backends p = l1 ++ b :: l2 →
       fake_name b = s →
       (∀ b', b' ∈ l2 → fake_name b' ≠ s) →
       outcome (searched ← search_backend p s; get_backend_info searched)
       = Value (backend_info_of b)).
Proof.
  split.
  - intros Hno. rewrite search_backend_run, (no_match _ _ Hno).
    reflexivity.
  - intros l1 l2 b Hbs Hb Hl2.
    rewrite search_backend_run, Hbs, (last_match _ l1 l2 b Hb Hl2).
    reflexivity.
Qed.

Lemma info_of_searched_backend_witness :
  outcome (searched ← search_backend example_provider "fake_manila";
           get_backend_info searched)
  = Raise (AttributeError "name")
  ∧ outcome (searched ← search_backend example_provider_dup "fake_melbourne";
             get_backend_info searched)
    = Value (backend_info_of example_melbourne_v2).
Proof.
  split.
  - destruct (info_of_searched_backend example_provider "fake_manila")
      as [Hnone _].
    rewrite Hnone; [reflexivity|].
    intros b Hb.
    apply elem_of_cons in Hb as [->|Hb]; [discriminate|].
    apply elem_of_cons in Hb as [->|Hb]; [discriminate|].
    by apply elem_of_nil in Hb.
  - destruct (info_of_searched_backend example_provider_dup "fake_melbourne")
      as [_ Hsome].
    apply (Hsome [example_melbourne; example_armonk] [example_armonk]
             example_melbourne_v2); [reflexivity|reflexivity|].
    intros b Hb. apply elem_of_cons in Hb as [->|Hb]; [discriminate|].
    by apply elem_of_nil in Hb.
Defined.

Section UnreadableName.
Context {P B : Type} {backend_api : BackendV2 B} {provider_api : Provider P B}.

Lemma search_loop_unreadable (s : string) (l1 l2 : list B) (b : B) (e : Exn)
    (acc : option B) :
  (∀ b', b' ∈ l1 → ∃ n, name b' = Value n) →
  name b = Raise e →
  for_each (l1 ++ b :: l2) (λ backend searched_backend,
    n ← backend_attr (Some backend) "name" name;
    if String.eqb n s then mret (Some backend) else mret searched_backend) acc
  = (((λ b', read_ok b' "name") <$> l1)
     ++ [{| ev_op := GetAttr (RBackend b) "name"; ev_raised := Some e |}],
     Raise e).
Proof.
  intros Hl1 Hb. revert acc.
  induction l1 as [|x l1 IH]; intros acc; cbn [app for_each fmap list_fmap].
  - change (backend_attr (Some b) "name" name)
      with (perform (B := B) (GetAttr (RBackend b) "name") (name b)).
    rewrite Hb. reflexivity.
  - destruct (Hl1 x) as [n Hn]; [left|].
    change (backend_attr (Some x) "name" name)
      with (perform (B := B) (GetAttr (RBackend x) "name") (name x)).
    rewrite Hn.
    assert (∀ k : option B → Run B (option B),
              (perform (GetAttr (RBackend x) "name") (Value n)
               ≫= (λ n0, if String.eqb n0 s then mret (Some x) else mret acc))
              ≫= k
              = (read_ok x "name" :: events (k (if String.eqb n s
                                                then Some x else acc)),
                 outcome (k (if String.eqb n s then Some x else acc))))
      as Hstep.
    { intros k. unfold mbind, run_mbind, run_bind. cbn.
      destruct (String.eqb n s); cbn; by destruct (k _). }
    rewrite Hstep, IH; [done|]. intros b' Hb'. apply Hl1. by right.
Qed.

(** X2: a name that cannot be read stops the search, even after a match.
    When [provider.backends()] returns [l1 ++ b :: l2], the names of [l1]
    can be read and reading the name of [b] raises, [search_backend]
    raises that exception whatever the backends of [l1] are called, and
    the backends of [l2] are never looked at. *)
Theorem search_backend_unreadable_name (p : P) (s : string)
    (l1 l2 : list B) (b : B) (e : Exn) :
  backends p = Value (l1 ++ b :: l2) →
  (∀ b', b' ∈ l1 → ∃ n, name b' = Value n) →
  name b = Raise e →
  search_backend p s
  = (call_ok "backends" []
     :: ((λ b', read_ok b' "name") <$> l1)
     ++ [{| ev_op := GetAttr (RBackend b) "name"; ev_raised := Some e |}],
     Raise e).
Proof.
  intros Hp Hl1 Hb. unfold search_backend. rewrite Hp.
  rewrite (bind_value _ _ (l1 ++ b :: l2)) by done.
  by rewrite (search_loop_unreadable s l1 l2 b e None Hl1 Hb).
Qed.

End UnreadableName.

Lemma search_backend_unreadable_name_witness :
  search_backend (backend_api := backend_unnamed_armonk)
                 example_provider_dup "fake_melbourne"
  = ([call_ok "backends" [];
      read_ok example_melbourne "name";
      {| ev_op := GetAttr (RBackend example_armonk) "name";
         ev_raised := Some (SdkError "RuntimeError" "name") |}],
     Raise (SdkError "RuntimeError" "name")).
Proof.
  apply (search_backend_unreadable_name
           (backend_api := backend_unnamed_armonk)
           example_provider_dup "fake_melbourne"
           [example_melbourne] [example_melbourne_v2; example_armonk]
           example_armonk (SdkError "RuntimeError" "name")).
  - reflexivity.
  - intros b' Hb'. apply elem_of_cons in Hb' as [->|Hb'].
    + by exists "fake_melbourne".
    + by apply elem_of_nil in Hb'.
  - reflexivity.
Defined.

(** ** [get_gate_errors] on any backend class *)

Section AnyBackend.
Context {B : Type} {backend_api : BackendV2 B}.
Context (b : B) (t : Target).
Hypothesis read_target : target b = Value t.

Lemma backend_target_read :
  backend_attr (Some b) "target" target = ([read_ok b "target"], Value t).
Proof using read_target.
  change (backend_attr (Some b) "target" target)
    with (perform (B := B) (GetAttr (RBackend b) "target") (target b)).
  by rewrite read_target.
Qed.

Lemma target_entry_read (gate : string) (m : QargsMap) (qbits : Qargs)
    (entry : option InstructionProperties) :
  target_lookup t gate = Some m →
  qargs_lookup m qbits = Some entry →
  target_entry (Some b) gate qbits = ([read_ok b "target"], Value entry).
Proof using read_target.
  intros Hm Hq. unfold target_entry, target_getitem, qargs_getitem.
  rewrite backend_target_read. unfold mbind, run_mbind, run_bind. cbn.
  rewrite Hm. cbn. by rewrite Hq.
Qed.

Lemma any_inner_loop (gate : string) (m : QargsMap) (qs : list Qargs) :
  target_lookup t gate = Some m →
  ∀ (ge : gmap string (gmap Qargs (option Number)))
    (inner : gmap Qargs (option Number)),
    (∀ q, q ∈ qs → is_Some (qargs_lookup m q)) →
    ge !! gate = Some inner →
    outcome
      (for_each qs (λ qbits gate_errors,
         e1 ← target_entry (Some b) gate qbits;
         c ← (if not_None e1
              then e2 ← target_entry (Some b) gate qbits; mret (not_None e2)
              else mret false);
         if (c : bool)
         then
           e3 ← target_entry (Some b) gate qbits;
           v ← props_attr e3 "error" error;
           setitem2 gate_errors gate qbits v
         else
           setitem2 gate_errors gate qbits None) ge)
    = Value (<[gate := inner_errors m qs inner]> ge).
Proof using read_target.
  intros Hm. induction qs as [|q qs IH]; intros ge inner Hqs Hge.
  - cbn. f_equal. symmetry. by apply insert_id.
  - destruct (Hqs q) as [entry Hq]; [left|].
    cbn [for_each].
    rewrite (outcome_bind _ _
               (<[gate := <[q := entry_error entry]> inner]> ge)).
    + rewrite (IH _ (<[q := entry_error entry]> inner)).
      * f_equal. rewrite insert_insert_eq. unfold inner_errors. cbn.
        by rewrite Hq.
      * intros q' Hq'. apply Hqs. by right.
      * apply lookup_insert_eq.
    + rewrite !(target_entry_read gate m q entry Hm Hq).
      unfold setitem2, getitem. rewrite Hge.
      destruct entry as [p|]; reflexivity.
Qed.

Lemma any_outer_loop (gs : list string) :
  ∀ ge : gmap string (gmap Qargs (option Number)),
    (∀ g, g ∈ gs → is_Some (target_lookup t g)) →
    outcome
      (for_each gs (λ gate gate_errors,
         let gate_errors := <[gate := ∅]> gate_errors in
         t ← backend_attr (Some b) "target" target;
         m ← target_getitem t gate;
         for_each (qargs_keys m) (λ qbits gate_errors,
           e1 ← target_entry (Some b) gate qbits;
           c ← (if not_None e1
                then e2 ← target_entry (Some b) gate qbits; mret (not_None e2)
                else mret false);
           if (c : bool)
           then
             e3 ← target_entry (Some b) gate qbits;
             v ← props_attr e3 "error" error;
             setitem2 gate_errors gate qbits v
           else
             setitem2 gate_errors gate qbits None) gate_errors) ge)
    = Value (gate_errors_of t gs ge).
Proof using read_target.
  induction gs as [|g gs IH]; intros ge Hgs; [done|].
  destruct (Hgs g) as [m Hm]; [left|].
  cbn [for_each].
  rewrite (outcome_bind _ _
             (<[g := inner_errors m (qargs_keys m) ∅]> ge)).
  - rewrite IH by (intros g' Hg'; apply Hgs; by right).
    unfold gate_errors_of. cbn. by rewrite Hm.
  - cbn zeta. rewrite backend_target_read.
    rewrite (outcome_bind _ _ t) by done.
    unfold target_getitem. rewrite Hm.
    rewrite (outcome_bind _ _ m) by done.
    rewrite (any_inner_loop g m (qargs_keys m) Hm _ ∅).
    + by rewrite insert_insert_eq.
    + intros q Hq. by apply qargs_lookup_keys.
    + apply lookup_insert_eq.
Qed.

Lemma any_get_gate_errors :
  outcome (get_gate_errors (Some b))
  = Value (gate_errors_of t (target_keys t) ∅).
Proof using read_target.
  unfold get_gate_errors.
  rewrite (outcome_bind _ _ t) by (by rewrite backend_target_read).
  apply any_outer_loop. intros g Hg. by apply target_lookup_keys.
Qed.

End AnyBackend.

(** X3: on a backend of any class, [get_gate_errors] fails only if the
    read of [backend.target] fails.  When that read raises, the helper
    raises the same exception after that single read; when it returns a
    target, whatever its content, the helper returns: its own
    subscripts never raise [KeyError], and the dictionary has the gates
    of the target as keys, each bound to a dictionary over the qubit
    tuples of that gate. *)
Theorem get_gate_errors_fails_only_on_target {B : Type}
    {backend_api : BackendV2 B} (b : B) :
  match target b with
  | Raise e =>
      get_gate_errors (Some b)
      = ([{| ev_op := GetAttr (RBackend b) "target"; ev_raised := Some e |}],
         Raise e)
  | Value t =>
      ∃ ge : gmap string (gmap Qargs (option Number)),
        outcome (get_gate_errors (Some b)) = Value ge
        ∧ dom ge = list_to_set (target_keys t)
        ∧ ∀ gate m,
            target_lookup t gate = Some m →
            ∃ inner : gmap Qargs (option Number),
              ge !! gate = Some inner
              ∧ dom inner = list_to_set (qargs_keys m)
              ∧ ∀ qbits entry,
                  qargs_lookup m qbits = Some entry →
                  inner !! qbits = Some (entry_error entry)
  end.
Proof.
  destruct (target b) as [t|e] eqn:Ht.
  - eexists. split; [by apply any_get_gate_errors|].
    unfold gate_errors_of. split; [apply foldl_insert_dom|].
    intros gate m Hm. eexists. split.
    + rewrite foldl_insert_lookup, decide_True; [by rewrite Hm|].
      apply target_lookup_keys. by eexists.
    + cbn. unfold inner_errors. split; [apply foldl_insert_dom|].
      intros qbits entry Hq.
      rewrite foldl_insert_lookup, decide_True, Hq; [done|].
      apply qargs_lookup_keys. by eexists.
  - unfold get_gate_errors.
    change (backend_attr (Some b) "target" target)
      with (perform (B := B) (GetAttr (RBackend b) "target") (target b)).
    by rewrite Ht.
Qed.

(** On the class without [dtm], whose [target] can be read. *)
Example get_gate_errors_without_dtm :
  quiet (events (get_gate_errors (backend_api := backend_without_dtm)
                                 (Some example_isolated)))
  ∧ outcome (get_gate_errors (backend_api := backend_without_dtm)
                             (Some example_isolated))
    = Value (<["delay" := <[None := None]> ∅]>
            (<["measure" := <[Some [0] := None]> ∅]> ∅)).
Proof.
  split; [|vm_compute; reflexivity].
  repeat constructor.
Qed.

Lemma get_gate_errors_fails_only_on_target_witness :
  ∃ ge : gmap string (gmap Qargs (option Number)),
    outcome (get_gate_errors (backend_api := backend_without_dtm)
                             (Some example_isolated)) = Value ge
    ∧ dom ge = list_to_set ["delay"; "measure"].
Proof.
  pose proof (get_gate_errors_fails_only_on_target
                (backend_api := backend_without_dtm) example_isolated) as H.
  cbn [target backend_without_dtm] in H.
  destruct H as (ge & Hge & Hdom & _).
  exists ge. split; [exact Hge|exact Hdom].
Defined.

(** ** Which helpers write to standard output *)

Lemma all_perform {B A} (Q : Event B → Prop) (op : Op B) (r : Res A) :
  Q {| ev_op := op; ev_raised := raised r |} →
  Forall Q (events (perform op r)).
Proof. intros HQ. constructor; [exact HQ|constructor]. Qed.

Lemma all_ret {B A} (Q : Event B → Prop) (a : A) :
  Forall Q (events (mret a : Run B A)).
Proof. constructor. Qed.

Lemma printed_silent {B} (log : list (Event B)) :
  Forall silent log → printed log = [].
Proof.
  induction 1 as [|ev log Hev _ IH]; [done|]. cbn.
  destruct (ev_op ev) as [text| | |] eqn:Hop; try done.
  by destruct (Hev text).
Qed.

(** One step of a proof that every event of a run satisfies a predicate;
    [solve_event] settles the predicate on one event. *)
Ltac all_step solve_event :=
  first
    [ apply all_ret
    | apply all_perform; solve_event
    | apply all_for_each; intros
    | apply all_bind; [|intros ? ?]
    | match goal with
      | |- context [match ?x with Some _ => _ | None => _ end] => destruct x
      | |- context [if ?x then _ else _] => destruct x
      end ].

(** X4: only [print_backend_info] writes to standard output.  On any
    SDK and any input, the runs of [search_backend], [get_backend_info],
    [get_gate_errors] and [create_options] print nothing. *)
Theorem helpers_print_nothing {P B : Type}
    {backend_api : BackendV2 B} {provider_api : Provider P B}
    {runtime : Runtime B}
    (provider : P) (searched_backend_name : string) (backend : option B)
    (nb_shots : Z) :
  printed (events (search_backend provider searched_backend_name)) = []
  ∧ printed (events (get_backend_info backend)) = []
  ∧ printed (events (get_gate_errors backend)) = []
  ∧ printed (events (create_options nb_shots backend)) = [].
Proof.
  split.
  { apply printed_silent. unfold search_backend, backend_attr.
    repeat all_step ltac:(intros ?; discriminate). }
  split.
  { apply printed_silent. unfold get_backend_info, backend_attr.
    repeat all_step ltac:(intros ?; discriminate). }
  split.
  { apply printed_silent.
    unfold get_gate_errors, target_entry, setitem2, getitem, target_getitem,
      qargs_getitem, props_attr, backend_attr.
    repeat all_step ltac:(intros ?; discriminate). }
  apply printed_silent. unfold create_options, backend_attr.
  repeat all_step ltac:(intros ?; discriminate).
Qed.

(** ** The two modes of [create_options] *)

(** X5: the options made with a backend differ from the options made
    without one in the [simulator] field only.  Whenever
    [create_options(nb_shots, backend)] returns, so does
    [create_options(nb_shots)], with the same [execution] object and the
    same two levels; [execution.init_qubits] is the one [Options()] set,
    and the options made without a backend keep the [simulator] of
    [Options()]. *)
Theorem create_options_modes_agree {B : Type} {backend_api : BackendV2 B}
    {runtime : Runtime B} (nb_shots : Z) (b : B) (noisy : Options) :
  outcome (create_options nb_shots (Some b)) = Value noisy →
  ∃ ideal o0 : Options,
    new_Options = Value o0
    ∧ outcome (create_options nb_shots None) = Value ideal
    ∧ execution ideal = execution noisy
    ∧ optimization_level ideal = optimization_level noisy
    ∧ resilience_level ideal = resilience_level noisy
    ∧ init_qubits (execution noisy) = init_qubits (execution o0)
    ∧ simulator ideal = simulator o0.
Proof.
  unfold create_options. intros H.
  apply bind_inv in H as (o0 & Ho0 & H & _). cbv beta zeta in H.
  apply perform_inv in Ho0 as [Ho0 _].
  apply bind_inv in H as (nm & _ & H & _).
  apply bind_inv in H as (bg & _ & H & _).
  apply bind_inv in H as (cm & _ & H & _).
  cbn in H. injection H as <-.
  eexists _, o0. split; [done|]. rewrite Ho0. cbn.
  split; [reflexivity|]. done.
Qed.

Lemma create_options_modes_agree_witness :
  ∃ ideal : Options,
    outcome (create_options (runtime := local_runtime example_sdk) 1024 None)
    = Value ideal
    ∧ execution ideal
      = {| shots := PyInt 1024; init_qubits := PyObj 16 |}
    ∧ simulator ideal = SimulatorOptions (PyObj 17).
Proof.
  assert (outcome (create_options (runtime := local_runtime example_sdk)
                                  1024 (Some example_melbourne))
          = Value
              {| execution :=
                   {| shots := PyInt 1024; init_qubits := PyObj 16 |};
                 optimization_level := PyInt 0;
                 resilience_level := PyInt 0;
                 simulator :=
                   SimulatorDict
                     (<["coupling_map" := PyCouplingMap 2]>
                     (<["basis_gates" := PyObj 3]>
                     (<["noise_model" := PyObj 18]> ∅))) |}) as Hnoisy
    by reflexivity.
  destruct (create_options_modes_agree _ _ _ Hnoisy)
    as (ideal & o0 & Ho0 & Hideal & Hexec & _ & _ & _ & Hsim).
  exists ideal. split; [exact Hideal|]. split; [exact Hexec|].
  cbn in Ho0. injection Ho0 as <-. exact Hsim.
Defined.

(** ** What [print_backend_info] needs and what it prints *)

Lemma printed_app {B} (l1 l2 : list (Event B)) :
  printed (l1 ++ l2) = printed l1 ++ printed l2.
Proof.
  induction l1 as [|ev l1 IH]; [done|]. cbn.
  destruct (ev_op ev); cbn; by rewrite IH.
Qed.

Lemma printed_print_bind {B C} (text : string) (k : unit → Run B C) :
  printed (events (print text ≫= k)) = text :: printed (events (k tt)).
Proof. by rewrite (events_bind _ _ tt). Qed.

Section PrintedKeys.
Context {B : Type} {runtime : Runtime B}.

(** X6: [print_backend_info] looks at ten keys of the dictionary and at
    nothing else: two dictionaries that agree on those keys give the
    same run, output included.  In particular the keys
    'instruction_durations' and 'instruction_schedule_map', which
    [get_backend_info] stores, play no part in the printing. *)
Theorem print_backend_info_reads_ten_keys (info1 info2 : gmap string PyVal) :
  (∀ key, key ∈ printed_keys → info1 !! key = info2 !! key) →
  print_backend_info info1 = print_backend_info info2.
Proof.
  intros Hkeys.
  assert (∀ key, key ∈ printed_keys →
                 getitem (B := B) info1 key = getitem info2 key) as Hget.
  { intros key Hkey. unfold getitem. by rewrite (Hkeys key Hkey). }
  unfold print_backend_info, info_entry.
  rewrite (Hget "name") by (by repeat constructor).
  rewrite (Hget "version") by (by repeat constructor).
  rewrite (Hget "online_date") by (by repeat constructor).
  rewrite (Hget "max_circuits_per_job") by (by repeat constructor).
  rewrite (Hget "num_qubits") by (by repeat constructor).
  rewrite (Hget "syst_time_resolution_input_signals")
    by (by repeat constructor).
  rewrite (Hget "syst_time_resolution_output_signals")
    by (by repeat constructor).
  rewrite (Hget "coupling_map") by (by repeat constructor).
  rewrite (Hget "operation_names") by (by repeat constructor).
  rewrite (Hget "target") by (by repeat constructor).
  reflexivity.
Qed.

End PrintedKeys.

Lemma print_backend_info_reads_ten_keys_witness :
  print_backend_info (runtime := local_runtime example_sdk)
                     (backend_info_of example_armonk)
  = print_backend_info (runtime := local_runtime example_sdk)
      (<["instruction_durations" := PyNone]>
         (delete "instruction_schedule_map"
                 (backend_info_of example_armonk))).
Proof.
  apply print_backend_info_reads_ten_keys.
  intros key Hkey.
  assert (key ≠ "instruction_durations"
          ∧ key ≠ "instruction_schedule_map") as [Hd Hs].
  { unfold printed_keys in Hkey.
    repeat (apply elem_of_cons in Hkey as [->|Hkey]; [by split|]).
    by apply elem_of_nil in Hkey. }
  by rewrite lookup_insert_ne, lookup_delete_ne.
Defined.

Section Returns.
Context {B : Type} {runtime : Runtime B}.

(** X7: [print_backend_info] returns whenever the dictionary has the ten
    keys it looks up, the value under 'coupling_map' is a coupling map
    whose [draw()] returns and the value under 'target' is a [Target]:
    the content of the target never makes it fail.  Conversely a run
    that returns has found the ten keys: when one of them is missing the
    function raises. *)
Theorem print_backend_info_return_conditions
    (backend_info : gmap string PyVal) :
  (∀ (id : positive) (t : Target),
     (∀ key, key ∈ printed_keys → is_Some (backend_info !! key)) →
     backend_info !! "coupling_map" = Some (PyCouplingMap id) →
     draw id = Value tt →
     backend_info !! "target" = Some (PyTarget t) →
     outcome (print_backend_info backend_info) = Value tt)
  ∧ (outcome (print_backend_info backend_info) = Value tt →
     ∀ key, key ∈ printed_keys → is_Some (backend_info !! key))
  ∧ (∀ key, key ∈ printed_keys → backend_info !! key = None →
     ∃ e, outcome (print_backend_info backend_info) = Raise e).
Proof.
  assert (outcome (print_backend_info backend_info) = Value tt →
          ∀ key, key ∈ printed_keys → is_Some (backend_info !! key))
    as Hfound; [|split; [|split; [exact Hfound|]]].
  - unfold print_backend_info, print2. intros H.
    apply bind_inv in H as (v1 & H1%getitem_inv & H & _).
    apply bind_inv in H as (? & _ & H & _).
    apply bind_inv in H as (v2 & H2%getitem_inv & H & _).
    apply bind_inv in H as (? & _ & H & _).
    apply bind_inv in H as (v3 & H3%getitem_inv & H & _).
    apply bind_inv in H as (? & _ & H & _).
    apply bind_inv in H as (v4 & H4%getitem_inv & H & _).
    apply bind_inv in H as (? & _ & H & _).
    apply bind_inv in H as (v5 & H5%getitem_inv & H & _).
    apply bind_inv in H as (? & _ & H & _).
    apply bind_inv in H as (? & _ & H & _).
    apply bind_inv in H as (v6 & H6%getitem_inv & H & _).
    apply bind_inv in H as (? & _ & H & _).
    apply bind_inv in H as (v7 & H7%getitem_inv & H & _).
    apply bind_inv in H as (? & _ & H & _).
    apply bind_inv in H as (? & _ & H & _).
    apply bind_inv in H as (v8 & H8%getitem_inv & H & _).
    apply bind_inv in H as (? & _ & H & _).
    apply bind_inv in H as (v9 & H9%getitem_inv & H & _).
    apply bind_inv in H as (? & _ & H & _).
    apply bind_inv in H as (? & _ & H & _).
    apply bind_inv in H as (v10 & H10%getitem_inv & H & _).
    intros key Hkey. unfold printed_keys in Hkey.
    repeat (apply elem_of_cons in Hkey as [->|Hkey]; [by eexists|]).
    by apply elem_of_nil in Hkey.
  - intros id t Hkeys Hcm Hdraw Htarget.
    by apply (print_backend_info_returns backend_info t Htarget id).
  - intros key Hkey Hnone.
    destruct (outcome (print_backend_info backend_info)) as [[]|e] eqn:Hout;
      [|by exists e].
    destruct (Hfound eq_refl key Hkey) as [v Hv]. by rewrite Hnone in Hv.
Qed.

End Returns.

Lemma print_backend_info_return_conditions_witness :
  outcome (print_backend_info (runtime := local_runtime example_sdk)
                              (backend_info_of example_melbourne))
  = Value tt
  ∧ is_Some (backend_info_of example_melbourne !! "operation_names").
Proof.
  destruct (print_backend_info_return_conditions
              (runtime := local_runtime example_sdk)
              (backend_info_of example_melbourne)) as (Hif & Honly & _).
  assert (outcome (print_backend_info (runtime := local_runtime example_sdk)
                                      (backend_info_of example_melbourne))
          = Value tt) as Hout.
  { apply (Hif 2%positive example_target); [|reflexivity..].
    intros key Hkey. unfold printed_keys in Hkey.
    repeat (apply elem_of_cons in Hkey as [->|Hkey]; [by eexists|]).
    by apply elem_of_nil in Hkey. }
  split; [exact Hout|].
  apply (Honly Hout). unfold printed_keys. by repeat constructor.
Defined.

Section PrintLines.
Context {B : Type} {runtime : Runtime B}.
Context (backend_info : gmap string PyVal) (t : Target).
Hypothesis info_target : backend_info !! "target" = Some (PyTarget t).

Lemma print_inner_lines (gate : string) (m : QargsMap) (qs : list Qargs) :
  target_lookup t gate = Some m →
  (∀ q, q ∈ qs → is_Some (qargs_lookup m q)) →
  printed (events
    (for_each qs (λ qbits _,
      e1 ← info_entry backend_info gate qbits;
      c ← (if not_None e1
           then e2 ← info_entry backend_info gate qbits; mret (not_None e2)
           else mret false);
      if (c : bool)
      then
        e3 ← info_entry backend_info gate qbits;
        d ← props_attr e3 "duration" duration;
        e4 ← info_entry backend_info gate qbits;
        e ← props_attr e4 "error" error;
        print (B := B)
              (tab +:+ tab +:+ "Qubit(s) " +:+ str_qargs qbits +:+
               ": duration=" +:+ str_optnum d +:+
               ", error=" +:+ str_optnum e)
      else
        print (tab +:+ tab +:+ "Qubit(s) " +:+ str_qargs qbits +:+
               ": duration=None, error=None")) tt))
  = (λ q, entry_line q (default None (qargs_lookup m q))) <$> qs.
Proof using info_target.
  intros Hm. induction qs as [|q qs IH]; intros Hqs; [done|].
  destruct (Hqs q) as [entry Hq]; [left|].
  cbn [for_each fmap list_fmap].
  rewrite !(info_entry_found backend_info t info_target gate m q entry Hm Hq).
  rewrite (events_bind _ _ tt) by (by destruct entry).
  rewrite printed_app, IH by (intros q' Hq'; apply Hqs; by right).
  rewrite Hq. by destruct entry.
Qed.

Lemma print_outer_lines (gs : list string) :
  (∀ g, g ∈ gs → is_Some (target_lookup t g)) →
  printed (events
    (for_each gs (λ gate _,
      print2 tab gate;;
      t ← getitem backend_info "target";
      m ← val_getitem t gate;
      for_each (qargs_keys m) (λ qbits _,
        e1 ← info_entry backend_info gate qbits;
        c ← (if not_None e1
             then e2 ← info_entry backend_info gate qbits; mret (not_None e2)
             else mret false);
        if (c : bool)
        then
          e3 ← info_entry backend_info gate qbits;
          d ← props_attr e3 "duration" duration;
          e4 ← info_entry backend_info gate qbits;
          e ← props_attr e4 "error" error;
          print (B := B)
                (tab +:+ tab +:+ "Qubit(s) " +:+ str_qargs qbits +:+
                 ": duration=" +:+ str_optnum d +:+
                 ", error=" +:+ str_optnum e)
        else
          print (tab +:+ tab +:+ "Qubit(s) " +:+ str_qargs qbits +:+
                 ": duration=None, error=None")) tt) tt))
  = mjoin ((λ g,
              (tab +:+ " " +:+ g)
              :: ((λ q, entry_line q
                          (default None
                             (qargs_lookup (default [] (target_lookup t g))
                                           q)))
                  <$> qargs_keys (default [] (target_lookup t g))))
           <$> gs).
Proof using info_target.
  induction gs as [|g gs IH]; intros Hgs; [done|].
  destruct (Hgs g) as [m Hm]; [left|].
  assert (∀ q, q ∈ qargs_keys m → is_Some (qargs_lookup m q)) as Hkeys.
  { intros q Hq. by apply qargs_lookup_keys. }
  destruct (print_inner_loop backend_info t info_target g m (qargs_keys m)
              Hm Hkeys) as [Hinner _].
  pose proof (print_inner_lines g m (qargs_keys m) Hm Hkeys) as Hlines.
  assert (outcome (getitem (B := B) backend_info "target")
          = Value (PyTarget t)) as Hget.
  { unfold getitem. by rewrite info_target. }
  assert (outcome (val_getitem (B := B) (PyTarget t) g) = Value m) as Hsub.
  { cbn. unfold target_getitem. by rewrite Hm. }
  assert (events (getitem (B := B) backend_info "target") = []) as Hget_ev.
  { unfold getitem. by rewrite info_target. }
  assert (events (val_getitem (B := B) (PyTarget t) g) = []) as Hsub_ev.
  { cbn. unfold target_getitem. by rewrite Hm. }
  cbn [for_each fmap list_fmap mjoin list_join].
  rewrite (events_bind _ _ tt).
  - rewrite printed_app, IH by (intros g' Hg'; apply Hgs; by right).
    f_equal. unfold print2. rewrite printed_print_bind.
    rewrite (events_bind _ _ _ Hget), (events_bind _ _ _ Hsub).
    rewrite Hget_ev, Hsub_ev. cbn [app].
    rewrite Hlines, Hm. reflexivity.
  - rewrite (outcome_bind _ _ tt) by done.
    rewrite (outcome_bind _ _ _ Hget), (outcome_bind _ _ _ Hsub).
    exact Hinner.
Qed.

End PrintLines.

(** With distinct keys, a subscript finds the entry stored with a key. *)
Lemma entry_lines_by_lookup {B} {runtime : Runtime B} (m : QargsMap) :
  NoDup (qargs_keys m) →
  (λ q, entry_line q (default None (qargs_lookup m q))) <$> qargs_keys m
  = (λ qe, entry_line qe.1 qe.2) <$> m.
Proof.
  unfold qargs_keys. induction m as [|[q e] m IH]; [done|].
  intros [Hq Hm]%NoDup_cons. cbn [fmap list_fmap fst snd qargs_lookup].
  rewrite decide_True by done. cbn [default]. f_equal.
  rewrite <- IH by done. apply list_fmap_ext. intros i q' Hq'.
  destruct (decide (q = q')) as [->|Hne]; [|done].
  destruct Hq. by apply list_elem_of_lookup_2 in Hq'.
Qed.

Lemma target_lookup_NoDup (t : Target) (g : string) (m : QargsMap) :
  NoDup (target_keys t) → (g, m) ∈ t → target_lookup t g = Some m.
Proof.
  unfold target_keys. induction t as [|[g' m'] t IH]; intros Hnd Hin.
  - by apply elem_of_nil in Hin.
  - apply NoDup_cons in Hnd as [Hg' Hnd]. cbn.
    apply elem_of_cons in Hin as [[= -> ->]|Hin].
    + by rewrite String.eqb_refl.
    + destruct (String.eqb_spec g' g) as [->|Hne]; [|by apply IH].
      destruct Hg'. apply list_elem_of_fmap. by exists (g, m).
Qed.

Lemma gate_lines_by_table {B} {runtime : Runtime B} (t0 t : Target) :
  (∀ g m, (g, m) ∈ t → target_lookup t0 g = Some m) →
  (∀ g m, (g, m) ∈ t → NoDup (qargs_keys m)) →
  mjoin ((λ g,
            (tab +:+ " " +:+ g)
            :: ((λ q, entry_line q
                        (default None
                           (qargs_lookup (default [] (target_lookup t0 g)) q)))
                <$> qargs_keys (default [] (target_lookup t0 g))))
         <$> target_keys t)
  = target_lines t.
Proof.
  unfold target_keys, target_lines.
  induction t as [|[g m] t IH]; [done|]. intros Hlookup Hm.
  rewrite !fmap_cons.
  change (mjoin (?x :: ?l)) with (x ++ mjoin l).
  cbn [fst snd].
  rewrite IH.
  - rewrite (Hlookup g m) by left. cbn [default].
    rewrite entry_lines_by_lookup by (apply (Hm g); left). reflexivity.
  - intros g' m' Hin. apply Hlookup. by right.
  - intros g' m' Hin. apply (Hm g'). by right.
Qed.

Lemma printed_call_bind {B A C} (callee : string) (args : list (Arg B))
    (a : A) (k : A → Run B C) :
  printed (events (perform (Call callee args) (Value a) ≫= k))
  = printed (events (k a)).
Proof. by rewrite (events_bind _ _ a). Qed.

(** X8: what [print_backend_info(get_backend_info(backend))] writes, for
    a snapshot whose coupling map is a coupling map that [draw()] draws
    without raising and whose target has distinct keys: eleven lines with
    the attributes of the backend, then for each gate of the target, in
    order, one line with its name and one line for each of its qubit
    tuples, with the duration and the error of the entry, each a float,
    an int or [None], or with [None] twice when the entry is [None]. *)
Theorem print_backend_info_lines {B : Type} {runtime : Runtime B}
    (b : FakeBackendV2) (id : positive) :
  fake_coupling_map b = PyCouplingMap id →
  draw id = Value tt →
  NoDup (target_keys (fake_target b)) →
  (∀ g m, (g, m) ∈ fake_target b → NoDup (qargs_keys m)) →
  printed (events (print_backend_info (backend_info_of b)))
  = header_lines
      (PyStr (fake_name b)) (fake_backend_version b) (fake_online_date b)
      (fake_max_circuits b) (fake_num_qubits b) (fake_dt b) (fake_dtm b)
      (fake_operation_names b)
    ++ target_lines (fake_target b).
Proof.
  intros Hcm Hdraw Hgates Hentries.
  assert (backend_info_of b !! "name" = Some (PyStr (fake_name b))
          ∧ backend_info_of b !! "version" = Some (fake_backend_version b)
          ∧ backend_info_of b !! "online_date" = Some (fake_online_date b)
          ∧ backend_info_of b !! "max_circuits_per_job"
            = Some (fake_max_circuits b)
          ∧ backend_info_of b !! "num_qubits" = Some (fake_num_qubits b)
          ∧ backend_info_of b !! "syst_time_resolution_input_signals"
            = Some (fake_dt b)
          ∧ backend_info_of b !! "syst_time_resolution_output_signals"
            = Some (fake_dtm b)
          ∧ backend_info_of b !! "coupling_map" = Some (PyCouplingMap id)
          ∧ backend_info_of b !! "operation_names"
            = Some (fake_operation_names b)
          ∧ backend_info_of b !! "target" = Some (PyTarget (fake_target b)))
    as (H1 & H2 & H3 & H4 & H5 & H6 & H7 & H8 & H9 & H10).
  { unfold backend_info_of. rewrite Hcm. repeat split; by simplify_map_eq. }
  generalize dependent (backend_info_of b). intros info H1 H2 H3 H4 H5 H6 H7
    H8 H9 H10.
  assert (∀ g, g ∈ target_keys (fake_target b)
               → is_Some (target_lookup (fake_target b) g)) as Hlookups.
  { intros g Hg. by apply target_lookup_keys. }
  pose proof (print_outer_lines info (fake_target b) H10 _ Hlookups)
    as Hlines.
  rewrite (gate_lines_by_table (fake_target b) (fake_target b)) in Hlines;
    [|intros g m Hin; by apply target_lookup_NoDup|done].
  assert (getitem (B := B) info "target"
          = mret (PyTarget (fake_target b))) as Hget
    by (by apply getitem_found).
  unfold print_backend_info, print2.
  rewrite (getitem_found _ "name" _ H1), mret_bind, printed_print_bind.
  rewrite (getitem_found _ "version" _ H2), mret_bind, printed_print_bind.
  rewrite (getitem_found _ "online_date" _ H3), mret_bind, printed_print_bind.
  rewrite (getitem_found _ "max_circuits_per_job" _ H4), mret_bind,
    printed_print_bind.
  rewrite (getitem_found _ "num_qubits" _ H5), mret_bind, printed_print_bind.
  rewrite printed_print_bind.
  rewrite (getitem_found _ "syst_time_resolution_input_signals" _ H6),
    mret_bind, printed_print_bind.
  rewrite (getitem_found _ "syst_time_resolution_output_signals" _ H7),
    mret_bind, printed_print_bind.
  rewrite printed_print_bind.
  rewrite (getitem_found _ "coupling_map" _ H8), mret_bind.
  unfold val_draw. rewrite Hdraw, printed_call_bind.
  rewrite (getitem_found _ "operation_names" _ H9), mret_bind,
    printed_print_bind.
  rewrite printed_print_bind.
  assert (events (getitem (B := B) info "target") = [])
    as Hget_ev by (by rewrite Hget).
  rewrite (events_bind _ _ (PyTarget (fake_target b))) by (by rewrite Hget).
  rewrite (events_bind _ _ (target_keys (fake_target b))) by done.
  rewrite Hget_ev.
  change (events (val_keys (B := B) (PyTarget (fake_target b))))
    with (@nil (Event B)).
  rewrite !app_nil_l. cbv beta. unfold print2 in Hlines.
  rewrite Hlines. reflexivity.
Qed.

Lemma print_backend_info_lines_witness :
  printed (events (print_backend_info (runtime := local_runtime example_sdk)
                                      (backend_info_of example_melbourne)))
  = ["Name:  fake_melbourne";
     "Version:  0.0.0";
     "Online date:  <object>";
     "Max circuits per job:  None";
     "Number of qubits:  14";
     "System time resolution:";
     tab +:+ "Input signals:  float:4472406533629990549";
     tab +:+ "Output signals:  float:4472406533629990549";
     "Coupling map:";
     "Operations names:  <object>";
     "Target:";
     tab +:+ " cx";
     tab +:+ tab +:+ "Qubit(s) (0, 1): duration=float:4494803534348976128, "
         +:+ "error=float:4576918229304087675";
     tab +:+ tab +:+ "Qubit(s) (1, 0): duration=None, error=None";
     tab +:+ " measure";
     tab +:+ tab +:+ "Qubit(s) (0,): duration=None, error=None";
     tab +:+ " delay";
     tab +:+ tab +:+ "Qubit(s) None: duration=None, error=None"]
  ∧ printed (events (print_backend_info (runtime := local_runtime example_sdk)
                                        (backend_info_of example_armonk)))
    = ["Name:  fake_armonk";
       "Version:  0.0.0";
       "Online date:  <object>";
       "Max circuits per job:  None";
       "Number of qubits:  1";
       "System time resolution:";
       tab +:+ "Input signals:  float:4472406533629990549";
       tab +:+ "Output signals:  float:4472406533629990549";
       "Coupling map:";
       "Operations names:  <object>";
       "Target:";
       tab +:+ " rz";
       tab +:+ tab +:+ "Qubit(s) (0,): duration=float:0, error=0";
       tab +:+ " measure";
       tab +:+ tab +:+ "Qubit(s) (0,): duration=None, error=None"].
Proof.
  split.
  - rewrite (print_backend_info_lines (runtime := local_runtime example_sdk)
               example_melbourne 2).
    + vm_compute. reflexivity.
    + reflexivity.
    + reflexivity.
    + apply (bool_decide_unpack _). vm_compute. reflexivity.
    + intros g m Hin. unfold example_melbourne, example_target in Hin.
      cbn [fake_target] in Hin.
      repeat (apply elem_of_cons in Hin as [[= -> ->]|Hin];
              [apply (bool_decide_unpack _); vm_compute; reflexivity|]).
      by apply elem_of_nil in Hin.
  - rewrite (print_backend_info_lines (runtime := local_runtime example_sdk)
               example_armonk 7).
    + vm_compute. reflexivity.
    + reflexivity.
    + reflexivity.
    + apply (bool_decide_unpack _). vm_compute. reflexivity.
    + intros g m Hin. unfold example_armonk in Hin.
      cbn [fake_target] in Hin.
      repeat (apply elem_of_cons in Hin as [[= -> ->]|Hin];
              [apply (bool_decide_unpack _); vm_compute; reflexivity|]).
      by apply elem_of_nil in Hin.
Defined.

(** ** The script on a provider without "fake_melbourne" *)

(** X9: when the fake provider has no backend named "fake_melbourne", the
    script stops in the function tests: [search_backend] returns [None],
    [get_backend_info(None)] raises [AttributeError] at [.name], and the
    script ends with that exception.  Up to there it has listed the
    backends three times, read every name twice and printed one banner;
    it never contacts the runtime service and submits nothing. *)
Theorem main_without_melbourne {runtime : Runtime FakeBackendV2}
    {cloud : Cloud FakeProvider} (p : FakeProvider) :
  FakeProviderForBackendV2 = Value p →
  (∀ b, b ∈ fake_backends p → fake_name b ≠ "fake_melbourne") →
  outcome main = Raise (AttributeError "name")
  ∧ events main
    = [call_ok "FakeProviderForBackendV2" []; call_ok "backends" []]
      ++ (call_ok "backends" []
          :: ((λ b, read_ok b "name") <$> fake_backends p))
      ++ (call_ok "backends" []
          :: ((λ b, read_ok b "name") <$> fake_backends p))
      ++ [print_ok ">> Information about different backends";
          {| ev_op := GetAttr RNone "name";
             ev_raised := Some (AttributeError "name") |}]
  ∧ printed (events main) = [">> Information about different backends"]
  ∧ calls_to "QiskitRuntimeService" (events main) = []
  ∧ calls_to "run" (events main) = [].
Proof.
  intros Hp Hno.
  assert (main
          = ([call_ok "FakeProviderForBackendV2" []; call_ok "backends" []]
             ++ (call_ok "backends" []
                 :: ((λ b, read_ok b "name") <$> fake_backends p))
             ++ (call_ok "backends" []
                 :: ((λ b, read_ok b "name") <$> fake_backends p))
             ++ [print_ok ">> Information about different backends";
                 {| ev_op := GetAttr RNone "name";
                    ev_raised := Some (AttributeError "name") |}],
             Raise (AttributeError "name"))) as Hmain.
  { unfold main, function_tests. rewrite Hp.
    rewrite (bind_raise _ _ (AttributeError "name")).
    - rewrite (bind_value _ _ p) by done. cbv beta.
      rewrite (bind_value _ _ (fake_backends p)) by done. cbv beta.
      rewrite !search_backend_run, (no_match _ _ Hno).
      rewrite (bind_value _ _ None) by done. cbv beta.
      rewrite (bind_value _ _ (last (filter (λ b, fake_name b = "fake_armonk")
                                            (fake_backends p)))) by done.
      cbv beta.
      rewrite (bind_value _ _ tt) by done. cbv beta.
      rewrite (bind_raise _ _ (AttributeError "name")) by done.
      reflexivity.
    - rewrite (outcome_bind _ _ p) by done.
      rewrite (outcome_bind _ _ (fake_backends p)) by done.
      rewrite !search_backend_run, (no_match _ _ Hno).
      rewrite (outcome_bind _ _ None) by done.
      rewrite (outcome_bind _ _ (last (filter
                                         (λ b, fake_name b = "fake_armonk")
                                         (fake_backends p)))) by done.
      rewrite (outcome_bind _ _ tt) by done.
      by rewrite (bind_raise _ _ (AttributeError "name")). }
  rewrite Hmain. cbn [outcome events fst snd].
  split; [done|]. split; [done|].
  assert (∀ l : list FakeBackendV2,
            printed ((λ b, read_ok b "name") <$> l) = []) as Hreads.
  { intros l. by induction l. }
  assert (∀ (callee : string) (l : list FakeBackendV2),
            calls_to callee ((λ b, read_ok b "name") <$> l) = []) as Hcalls.
  { intros callee l. by induction l. }
  split.
  { rewrite !printed_app. cbn. by rewrite !Hreads. }
  split.
  - rewrite !calls_to_app. cbn. by rewrite !Hcalls.
  - rewrite !calls_to_app. cbn. by rewrite !Hcalls.
Qed.

Lemma main_without_melbourne_witness :
  outcome (main (runtime := local_runtime example_sdk)
                (cloud := example_cloud_small))
  = Raise (AttributeError "name")
  ∧ printed (events (main (runtime := local_runtime example_sdk)
                          (cloud := example_cloud_small)))
    = [">> Information about different backends"].
Proof.
  destruct (main_without_melbourne
              (runtime := local_runtime example_sdk)
              (cloud := example_cloud_small) example_provider_small)
    as (Hout & _ & Hprinted & _).
  - reflexivity.
  - intros b Hb.
    apply elem_of_cons in Hb as [->|Hb]; [discriminate|].
    apply elem_of_cons in Hb as [->|Hb]; [discriminate|].
    by apply elem_of_nil in Hb.
  - split; [exact Hout|exact Hprinted].
Defined.

(** ** Sessions are closed *)

Section Sessions.
Context {P B : Type} {backend_api : BackendV2 B} {provider_api : Provider P B}
  {runtime : Runtime B} {cloud : Cloud P}.

Lemma opened_app (l1 l2 : list (Event B)) :
  opened_sessions (l1 ++ l2) = opened_sessions l1 + opened_sessions l2.
Proof.
  unfold opened_sessions. by rewrite List.filter_app, length_app.
Qed.

Lemma closed_app (l1 l2 : list (Event B)) :
  closed_sessions (l1 ++ l2) = closed_sessions l1 + closed_sessions l2.
Proof.
  unfold closed_sessions. by rewrite List.filter_app, length_app.
Qed.

Lemma sessionless_counts (log : list (Event B)) :
  Forall sessionless log →
  opened_sessions log = 0 ∧ closed_sessions log = 0.
Proof.
  unfold opened_sessions, closed_sessions.
  induction 1 as [|ev log [Ho Hc] _ [IHo IHc]]; [done|]. cbn.
  by rewrite Ho, Hc.
Qed.

Lemma helper_event_sessionless (ev : Event B) :
  helper_event ev → sessionless ev.
Proof.
  unfold helper_event, sessionless, session_opened, session_closed.
  destruct (ev_op ev) as [| | |callee args]; try done. cbn. intros Hev.
  repeat (apply orb_true_iff in Hev as [Hev|Hev];
          [apply String.eqb_eq in Hev as ->; by destruct (ev_raised ev)|]).
  discriminate.
Qed.

Lemma balanced_counts (log : list (Event B)) :
  balanced log ↔ opened_sessions log = closed_sessions log.
Proof. done. Qed.

Lemma balanced_bind {A C} (m : Run B A) (k : A → Run B C) :
  balanced (events m) →
  (∀ a, outcome m = Value a → balanced (events (k a))) →
  balanced (events (m ≫= k)).
Proof.
  rewrite !balanced_counts. intros Hm Hk.
  destruct (outcome m) as [a|e] eqn:Ho.
  - rewrite (events_bind _ _ a Ho), opened_app, closed_app, Hm.
    f_equal. by apply Hk.
  - by rewrite (bind_raise _ _ e Ho).
Qed.

Lemma sessionless_balanced (log : list (Event B)) :
  Forall sessionless log → balanced log.
Proof.
  intros [Ho Hc]%sessionless_counts. apply balanced_counts. by rewrite Ho, Hc.
Qed.

Lemma events_with_exit {A} (exit : Run B unit) (body : Run B A) :
  events (with_exit exit body) = events body ++ events exit.
Proof. unfold with_exit. by destruct body, exit. Qed.

(** One [with Session(...)] block, whatever its calls answer. *)
Lemma session_block_balanced (k : nat) (service simulator : PyVal)
    (options : Options) (rest : Run B unit) :
  balanced (events rest) →
  balanced (events
    (session ← perform (Call "Session" [AVal service; AVal simulator])
                       (Session (P := P) k service simulator);
     with_exit (B := B)
       (perform (Call "Session.__exit__" [AVal session])
                (Session_exit (P := P) k session))
       (sampler ← perform (Call "Sampler" [AVal session; AOptions options])
                          (Sampler (P := P) k session options);
        tqc ← perform (Call "transpile" [ACircuit qc; AVal simulator])
                      (transpile (P := P) k qc simulator);
        job ← perform (Call "run" [AVal sampler; AVal tqc])
                      (Sampler_run (P := P) k sampler tqc);
        result ← perform (Call "result" [AVal job])
                         (Job_result (P := P) k job);
        print (str result));;
     rest)).
Proof.
  intros Hrest. apply balanced_counts in Hrest.
  destruct (Session (P := P) k service simulator) as [session|e].
  - rewrite (events_bind _ _ session) by done. cbv beta.
    match goal with
    | |- balanced (_ ++ events (with_exit ?exit ?body ≫= _)) =>
        assert (opened_sessions (events (with_exit exit body)) = 0
                ∧ closed_sessions (events (with_exit exit body)) = 1)
          as [Ho Hc]
    end.
    { rewrite events_with_exit, opened_app, closed_app.
      match goal with
      | |- opened_sessions (events ?body) + _ = _ ∧ _ =>
          assert (Forall sessionless (events body)) as Hbody
      end.
      { repeat all_step ltac:(split; [by destruct (raised _)|done]). }
      apply sessionless_counts in Hbody as [-> ->].
      split; [|done]. cbn. by destruct (raised _). }
    apply balanced_counts. rewrite opened_app, closed_app.
    match goal with
    | |- _ + opened_sessions (events (?m ≫= ?k0)) = _ =>
        destruct (outcome m) as [u|e] eqn:Hm;
        [rewrite (events_bind m k0 u Hm)|rewrite (bind_raise m k0 e Hm)]
    end.
    + rewrite opened_app, closed_app, Ho, Hc, Hrest. reflexivity.
    + cbn [events fst]. by rewrite Ho, Hc.
  - by rewrite (bind_raise _ _ e).
Qed.

Lemma function_tests_sessionless :
  Forall sessionless (events function_tests).
Proof.
  assert (∀ ev : Event B, helper_event ev → sessionless ev) as Hhelper
    by apply helper_event_sessionless.
  unfold function_tests.
  apply all_bind; [apply all_perform; split; [by destruct (raised _)|done]|]. intros fp _.
  apply all_bind; [apply all_perform; split; [by destruct (raised _)|done]|]. intros fbs _.
  apply all_bind.
  { eapply Forall_impl; [apply guard_search_backend|done]. }
  intros fm _. apply all_bind.
  { eapply Forall_impl; [apply guard_search_backend|done]. }
  intros fa _. apply all_bind; [apply all_perform; split; [by destruct (raised _)|done]|]. intros _ _.
  apply all_bind.
  { eapply Forall_impl; [apply guard_get_backend_info|done]. }
  intros info _. apply all_bind.
  { eapply Forall_impl; [apply guard_print_backend_info|done]. }
  intros _ _. apply all_bind.
  { eapply Forall_impl; [apply guard_get_backend_info|done]. }
  intros info' _. apply all_bind.
  { eapply Forall_impl; [apply guard_print_backend_info|done]. }
  intros _ _. constructor.
Qed.

(** X10: every session the script opens is closed, whatever happens
    inside it.  On any SDK, in the log of the [__main__] block the calls
    to [Session(...)] that returned a session are as many as the calls to
    [__exit__] of a session: an exception raised by the sampler, the
    transpiler or the job leaves no session open. *)
Theorem main_closes_its_sessions :
  opened_sessions (events main) = closed_sessions (events main).
Proof.
  apply balanced_counts. unfold main.
  apply balanced_bind.
  { apply sessionless_balanced, function_tests_sessionless. }
  intros fake_Melbourne _. unfold simulations.
  apply balanced_bind;
    [apply sessionless_balanced, all_perform; split; [by destruct (raised _)|done]|].
  intros _ _.
  apply balanced_bind.
  { apply sessionless_balanced, all_perform.
    split; [by destruct (raised _)|done]. }
  intros service _.
  apply balanced_bind.
  { apply sessionless_balanced, all_perform.
    split; [by destruct (raised _)|done]. }
  intros simulator _.
  apply balanced_bind.
  { apply sessionless_balanced.
    eapply Forall_impl; [apply guard_create_options|].
    apply helper_event_sessionless. }
  intros ideal_options _.
  apply balanced_bind.
  { apply sessionless_balanced.
    eapply Forall_impl; [apply guard_create_options|].
    apply helper_event_sessionless. }
  intros noisy_options _.
  apply balanced_bind;
    [apply sessionless_balanced, all_perform; split; [by destruct (raised _)|done]|].
  intros _ _.
  apply session_block_balanced.
  apply balanced_bind;
    [apply sessionless_balanced, all_perform; split; [by destruct (raised _)|done]|].
  intros _ _.
  pose proof (session_block_balanced 1 service simulator noisy_options
                (mret tt)) as Hlast.
  assert (balanced (events (mret tt : Run B unit))) as Hnil by done.
  specialize (Hlast Hnil). apply (proj1 (balanced_counts _)) in Hlast.
  apply balanced_counts.
  destruct (Session (P := P) 1 service simulator) as [session|e].
  - rewrite (events_bind _ _ session) in Hlast by done.
    rewrite (events_bind _ _ session) by done. cbv beta in Hlast |- *.
    rewrite opened_app, closed_app in Hlast.
    rewrite opened_app, closed_app.
    match type of Hlast with
    | _ + opened_sessions (events (?m ≫= ?k0)) = _ =>
        destruct (outcome m) as [u|e] eqn:Hm;
        [rewrite (events_bind m k0 u Hm) in Hlast
        |rewrite (bind_raise m k0 e Hm) in Hlast]
    end.
    + by rewrite app_nil_r in Hlast.
    + exact Hlast.
  - by rewrite (bind_raise _ _ e).
Qed.

End Sessions.

(** A run in which the first job is refused: the session is closed and
    the exception goes on. *)
Example main_refused_job :
  outcome (main (runtime := local_runtime example_sdk)
                (cloud := example_cloud_refusing))
  = Raise (SdkError "IBMRuntimeError" "refused")
  ∧ opened_sessions (events (main (runtime := local_runtime example_sdk)
                                  (cloud := example_cloud_refusing))) = 1
  ∧ closed_sessions (events (main (runtime := local_runtime example_sdk)
                                  (cloud := example_cloud_refusing))) = 1
  ∧ calls_to "run" (events (main (runtime := local_runtime example_sdk)
                                 (cloud := example_cloud_refusing)))
    = [[AVal (PyObj 25); AVal (PyObj 27)]].
Proof. vm_compute. repeat split. Qed.
